(** * emq_exporter: the collection cycle of the EMQ Prometheus exporter

    A shallow embedding of [collector.go] (the [Collector], its metric
    registry, the four fetch operations and [Collect]) together with the
    response schema, and the properties of the collection cycle proved
    about it.

    Conventions of the embedding.
    - Go [string]s are byte strings: [Stdlib.Strings.String.string].
    - Go [int] fields are [Z]; [float64] is IEEE-754 binary64, modelled by
      [spec_float] with precision 53 and maximal exponent 1024, so every
      rounding of the program is computed and not idealised.
    - A Go panic is an explicit outcome of the computation.
    - The objects the collector points to (the gauge, the two counters, the
      [url.URL] behind [c.url]) are fields of one state record threaded
      through every operation; what is written to the channel and to the
      log is returned. *)

From Stdlib Require Import ZArith NArith Lia Bool List.
From Stdlib Require Import Ascii String.
From Stdlib Require Import Floats.SpecFloat.
Import ListNotations.

Set Implicit Arguments.
Local Open Scope string_scope.
Local Open Scope Z_scope.

(** ** float64 *)

Module Float64.

Definition prec : Z := 53.
Definition emax : Z := 1024.

Definition float64 : Type := spec_float.

Definition zero : float64 := S754_zero false.

(** The conversion [float64(n)] of an integer: the nearest binary64 value,
    ties to even. *)
Definition of_int (n : Z) : float64 :=
  binary_normalize prec emax n 0 false.

Definition mul (x y : float64) : float64 := SFmul prec emax x y.

(** The correctly rounded quotient of two positive integers, the value
    [strconv.ParseFloat] returns for a decimal numeral [n / 10^k]. *)
Definition of_ratio (n d : positive) : float64 :=
  SFdiv prec emax (S754_finite false n 0) (S754_finite false d 0).

Definition is_inf (x : float64) : bool :=
  match x with
  | S754_infinity _ => true
  | _ => false
  end.

End Float64.

Import Float64.

(** ** Outcomes of a Go call that may log and may panic *)

Inductive outcome (A : Type) : Type :=
| Returned (v : A) (logged : list string)
| Panicked (reason : string).

Arguments Returned {A} v logged.
Arguments Panicked {A} reason.

(** ** The regular expression [validID]

    [regexp.MustCompile(`\d{1,}[.]\d{1,}|\d{1,}`)].  Go's regexp package
    matches leftmost-first: the match starts at the leftmost position where
    the expression matches at all, alternatives are tried in order and a
    repetition is greedy.  [\d] is the ASCII class [0-9], so matching bytes
    and matching runes agree on it. *)

Module Regexp.

Inductive cclass : Type :=
| CDigit
| CChar (c : ascii).

Inductive regex : Type :=
| One (c : cclass)
| Rep1 (c : cclass)
| Cat (r1 r2 : regex)
| Alt (r1 r2 : regex).

Definition is_digit (a : ascii) : bool :=
  ((48 <=? N_of_ascii a) && (N_of_ascii a <=? 57))%N.

Definition in_class (c : cclass) (a : ascii) : bool :=
  match c with
  | CDigit => is_digit a
  | CChar b => Ascii.eqb a b
  end.

(** One or more characters of class [c], then [k] on what is left; the
    longer repetition is preferred.  The result is the text matched by the
    repetition followed by the text matched by [k]. *)
Fixpoint rep1 (c : cclass) (s : string) (k : string -> option string)
  : option string :=
  match s with
  | EmptyString => None
  | String a s' =>
      if in_class c a then
        match rep1 c s' k with
        | Some m => Some (String a m)
        | None =>
            match k s' with
            | Some m => Some (String a m)
            | None => None
            end
        end
      else None
  end.

(** Backtracking match of [r] at the start of [s], continued by [k]. *)
Fixpoint run (r : regex) (s : string) (k : string -> option string)
  : option string :=
  match r with
  | One c =>
      match s with
      | EmptyString => None
      | String a s' =>
          if in_class c a then
            match k s' with
            | Some m => Some (String a m)
            | None => None
            end
          else None
      end
  | Rep1 c => rep1 c s k
  | Cat r1 r2 =>
      (* the text of r1 and of r2 are rebuilt by the nested calls *)
      run r1 s (fun rest => run r2 rest k)
  | Alt r1 r2 =>
      match run r1 s k with
      | Some m => Some m
      | None => run r2 s k
      end
  end.

(** The match of [r] anchored at the start of [s], if any. *)
Definition match_here (r : regex) (s : string) : option string :=
  run r s (fun _ => Some EmptyString).

(** [re.FindAllString(s, -1)]: the successive non-overlapping matches, left
    to right.  [skip] counts the characters of the previous match still to
    be stepped over.  An empty result is Go's nil slice. *)
Fixpoint find_all (r : regex) (s : string) (skip : nat) : list string :=
  match s with
  | EmptyString =>
      match skip with
      | O => match match_here r EmptyString with
             | Some m => [m]
             | None => []
             end
      | S _ => []
      end
  | String _ s' =>
      match skip with
      | S n => find_all r s' n
      | O =>
          match match_here r s with
          | Some m => m :: find_all r s' (Nat.pred (String.length m))
          | None => find_all r s' 0
          end
      end
  end.

Definition FindAllString (r : regex) (s : string) : list string :=
  find_all r s 0.

End Regexp.

Import Regexp.

Definition validID : regex :=
  Alt (Cat (Rep1 CDigit) (Cat (One (CChar ".")) (Rep1 CDigit)))
      (Rep1 CDigit).

(** ** strconv.ParseFloat on decimal numerals *)

Module Strconv.

Definition digit_val (a : ascii) : Z := Z.of_N (N_of_ascii a) - 48.

Fixpoint all_digits (s : string) : bool :=
  match s with
  | EmptyString => true
  | String a s' => is_digit a && all_digits s'
  end.

(** The value of a digit string read in base 10, most significant first. *)
Fixpoint digits_value (acc : Z) (s : string) : Z :=
  match s with
  | EmptyString => acc
  | String a s' => digits_value (10 * acc + digit_val a) s'
  end.

(** Splits at the first ['.']: the text before it and, when there is one,
    the text after it. *)
Fixpoint split_point (s : string) : string * option string :=
  match s with
  | EmptyString => (EmptyString, None)
  | String a s' =>
      if Ascii.eqb a "." then (EmptyString, Some s')
      else let '(i, f) := split_point s' in (String a i, f)
  end.

Inductive NumError : Type :=
| ErrSyntax
| ErrRange.

Fixpoint pow10 (k : nat) : positive :=
  match k with
  | O => 1%positive
  | S k' => (10 * pow10 k')%positive
  end.

(** The binary64 value nearest to [n / 10^k]. *)
Definition decimal_to_float (n : Z) (k : nat) : float64 :=
  match n with
  | Zpos p => of_ratio p (pow10 k)
  | _ => zero
  end.

Definition well_formed (int_part : string) (frac : option string) : bool :=
  match frac with
  | None =>
      negb (String.eqb int_part EmptyString) && all_digits int_part
  | Some f =>
      all_digits int_part && all_digits f &&
      negb (String.eqb int_part EmptyString && String.eqb f EmptyString)
  end.

(** [strconv.ParseFloat(s, 64)] on the unsigned decimal numerals
    [digits], [digits.digits], [digits.] and [.digits] (no sign, no
    exponent: the only forms [validID] can produce are among these).  The
    result is the nearest binary64 value; a numeral too large for binary64
    gives +Inf together with [ErrRange]; any other text is answered as a
    syntax error with value 0. *)
Definition ParseFloat (s : string) : float64 * option NumError :=
  let '(int_part, frac) := split_point s in
  if well_formed int_part frac then
    let f := match frac with Some f => f | None => EmptyString end in
    let v := decimal_to_float (digits_value 0 (int_part ++ f))
                              (String.length f) in
    if is_inf v then (v, Some ErrRange) else (v, None)
  else (zero, Some ErrSyntax).

End Strconv.

Import Strconv.

(** ** Response schema

    The four decoded payloads and the combined snapshot.  Go [int] is [Z];
    the fields of the two-level wrappers are prefixed with the payload they
    wrap, since Rocq projections share one name space. *)

Record nodesResponseResult : Type := {
  NodeName : string;
  Release : string;
  Status : string;
  MemoryTotal : string;
  MemoryUsed : string;
  ProcessesAvailable : Z;
  ProcessesUsed : Z;
  MaxFds : Z;
  Clients : Z;
  Load1 : string;
  Load5 : string;
  Load15 : string
}.

Record nodesResponse : Type := {
  nodes_Result : nodesResponseResult;
  nodes_Code : Z
}.

Record metricsResponseResult : Type := {
  MessagesDropped : Z;
  PacketsReceived : Z;
  PacketsPubcompReceived : Z;
  PacketsUnsuback : Z;
  PacketsPingresp : Z;
  PacketsPingreq : Z;
  MessagesQos0Sent : Z;
  MessagesQos2Received : Z;
  PacketsPubcompMissed : Z;
  MessagesRetained : Z;
  PacketsSuback : Z;
  BytesSent : Z;
  PacketsPubackReceived : Z;
  PacketsPubrecReceived : Z;
  MessagesQos2Sent : Z;
  PacketsPubrecSent : Z;
  PacketsPubackSent : Z;
  PacketsPubrelMissed : Z;
  PacketsConnect : Z;
  MessagesQos1Sent : Z;
  PacketsConnack : Z;
  PacketsPubrelReceived : Z;
  PacketsPublishReceived : Z;
  BytesReceived : Z;
  PacketsPubrelSent : Z;
  PacketsPubrecMissed : Z;
  PacketsSent : Z;
  MessagesQos0Received : Z;
  PacketsPubcompSent : Z;
  MessagesReceived : Z;
  MessagesSent : Z;
  PacketsSubscribe : Z;
  MessagesQos2Dropped : Z;
  PacketsUnsubscribe : Z;
  MessagesQos1Received : Z;
  PacketsDisconnect : Z;
  PacketsPublishSent : Z;
  PacketsPubackMissed : Z
}.

Record metricsResponse : Type := {
  metrics_Result : metricsResponseResult;
  metrics_Code : Z
}.

Record statsResponseResult : Type := {
  ClientsCount : Z;
  ClientsMax : Z;
  RetainedCount : Z;
  RetainedMax : Z;
  RoutesCount : Z;
  RoutesMax : Z;
  SessionsCount : Z;
  SessionsMax : Z;
  SubscribersCount : Z;
  SubscribersMax : Z;
  SubscriptionsCount : Z;
  SubscriptionsMax : Z;
  TopicsCount : Z;
  TopicsMax : Z
}.

Record statsResponse : Type := {
  stats_Result : statsResponseResult;
  stats_Code : Z
}.

Record ManagementResponseResult : Type := {
  Name : string;
  Version : string;
  Sysdescr : string;
  Uptime : string;
  Datetime : string;
  OtpRelease : string;
  NodeStatus : string
}.

Record managementResponse : Type := {
  management_Result : list ManagementResponseResult;
  management_Code : Z
}.

Record combinedResponse : Type := {
  nodes : nodesResponse;
  metrics : metricsResponse;
  stats : statsResponse;
  ClusterSize : Z
}.

(** The zero value of [ManagementResponseResult], the content of
    [var managementData ManagementResponseResult]. *)
Definition zero_ManagementResponseResult : ManagementResponseResult :=
  {| Name := ""; Version := ""; Sysdescr := ""; Uptime := "";
     Datetime := ""; OtpRelease := ""; NodeStatus := "" |}.

(** ** The part of the Prometheus client library the collector uses *)

Module Prometheus.

Inductive ValueType : Type :=
| CounterValue
| GaugeValue
| UntypedValue.

Record Desc_t : Type := {
  fqName : string;
  help : string;
  variableLabels : list string;
  constLabels : list (string * string)
}.

Definition join3 (a b c : string) : string := a ++ "_" ++ b ++ "_" ++ c.
Definition join2 (a b : string) : string := a ++ "_" ++ b.

(** [prometheus.BuildFQName]: the non-empty parts joined by ['_']; empty
    when [name] is. *)
Definition BuildFQName (namespace subsystem name : string) : string :=
  if String.eqb name "" then ""
  else if negb (String.eqb namespace "") && negb (String.eqb subsystem "")
       then join3 namespace subsystem name
  else if negb (String.eqb namespace "") then join2 namespace name
  else if negb (String.eqb subsystem "") then join2 subsystem name
  else name.

Definition NewDesc (fq hlp : string) (labels : list string)
    (consts : list (string * string)) : Desc_t :=
  {| fqName := fq; help := hlp; variableLabels := labels;
     constLabels := consts |}.

(** A gauge and a counter: their options and their current value.  [Inc]
    adds one and [Set] stores, as the [Counter] and [Gauge] interfaces
    promise; a counter has no operation that lowers it. *)
Record Gauge : Type := {
  gauge_Name : string;
  gauge_Help : string;
  gauge_value : float64
}.

Record Counter : Type := {
  counter_Name : string;
  counter_Help : string;
  counter_value : N
}.

Definition NewGauge (name hlp : string) : Gauge :=
  {| gauge_Name := name; gauge_Help := hlp; gauge_value := zero |}.

Definition NewCounter (name hlp : string) : Counter :=
  {| counter_Name := name; counter_Help := hlp; counter_value := 0%N |}.

Definition Set_ (g : Gauge) (v : float64) : Gauge :=
  {| gauge_Name := gauge_Name g; gauge_Help := gauge_Help g;
     gauge_value := v |}.

Definition Inc (c : Counter) : Counter :=
  {| counter_Name := counter_Name c; counter_Help := counter_Help c;
     counter_value := N.succ (counter_value c) |}.

(** What travels on the [chan<- prometheus.Metric] of [Collect]: a constant
    sample, or one of the collector's own gauge and counters with the value
    it has when it is sent. *)
Inductive Metric : Type :=
| ConstMetric (d : Desc_t) (t : ValueType) (v : float64)
    (labelValues : list string)
| GaugeMetric (g : Gauge)
| CounterMetric (c : Counter).

(** [prometheus.MustNewConstMetric]: panics when the number of label values
    is not the number of variable labels of the descriptor.  Its other two
    checks cannot fail here and are left out: the descriptors are built
    from constant, valid names, and the label values are strings decoded by
    [encoding/json], which are valid UTF-8. *)
Definition MustNewConstMetric (d : Desc_t) (t : ValueType) (v : float64)
    (labelValues : list string) : outcome Metric :=
  if Nat.eqb (List.length labelValues) (List.length (variableLabels d))
  then Returned (ConstMetric d t v labelValues) []
  else Panicked "inconsistent label cardinality".

End Prometheus.

Import Prometheus.

(** ** collector.go *)

Definition namespace : string := "emq".
Definition defaultLabels : list string := ["node"; "otp_release"; "version"].

Record metric : Type := {
  Type' : ValueType;
  Desc : Desc_t;
  Value : combinedResponse -> outcome float64
}.

(** [return float64(n)] *)
Definition ret_int (n : Z) : outcome float64 := Returned (of_int n) [].

(** The body shared by the [memory_total] and [memory_used] closures:
<<
    str := validID.FindAllString(field, -1)
    i, err := strconv.ParseFloat(str[0], 64)
    if err != nil { log.Error("error converting string into number") }
    return float64(i * 1000000)
>>
    [str[0]] on the nil slice is a run-time panic. *)
Definition memory_bytes (field : string) : outcome float64 :=
  let str := FindAllString validID field in
  match nth_error str 0 with
  | None => Panicked "index out of range [0] with length 0"
  | Some s0 =>
      let '(i, err) := ParseFloat s0 in
      let logged :=
        match err with
        | Some _ => ["error converting string into number"]
        | None => []
        end in
      Returned (mul i (of_int 1000000)) logged
  end.

(** The [metrics] field of the collector literal in [NewEMQCollector], in
    source order. *)
Definition registry : list metric := [
  {| Type' := GaugeValue;
     Desc := NewDesc (BuildFQName namespace "cluster" "size")
               "The total number of EMQ nodes in your cluster."
               defaultLabels [];
     Value := fun values => ret_int (ClusterSize values) |};
  {| Type' := GaugeValue;
     Desc := NewDesc (BuildFQName namespace "node" "process_used")
               "The amount of processes used by the EMQ node."
               defaultLabels [];
     Value := fun values => ret_int (ProcessesUsed (nodes_Result (nodes values))) |};
  {| Type' := GaugeValue;
     Desc := NewDesc (BuildFQName namespace "node" "process_available")
               "The amount of processes available to the EMQ node."
               defaultLabels [];
     Value := fun values => ret_int (ProcessesAvailable (nodes_Result (nodes values))) |};
  {| Type' := GaugeValue;
     Desc := NewDesc (BuildFQName namespace "node" "max_fds")
               "The amount of file descriptors available to the EMQ node."
               defaultLabels [];
     Value := fun values => ret_int (MaxFds (nodes_Result (nodes values))) |};
  {| Type' := GaugeValue;
     Desc := NewDesc (BuildFQName namespace "node" "memory_total")
               "The max amount of memory used to the EMQ node."
               defaultLabels [];
     Value := fun values => memory_bytes (MemoryTotal (nodes_Result (nodes values))) |};
  {| Type' := GaugeValue;
     Desc := NewDesc (BuildFQName namespace "node" "memory_used")
               "The amount of memory being used to the EMQ node."
               defaultLabels [];
     Value := fun values => memory_bytes (MemoryUsed (nodes_Result (nodes values))) |};
  {| Type' := GaugeValue;
     Desc := NewDesc (BuildFQName namespace "metric" "packets_disconnected")
               "The amount of packets disconnected"
               defaultLabels [];
     Value := fun values => ret_int (PacketsDisconnect (metrics_Result (metrics values))) |};
  {| Type' := GaugeValue;
     Desc := NewDesc (BuildFQName namespace "metric" "messages_qos2_received")
               "The amount of packets QOS2 messages received"
               defaultLabels [];
     Value := fun values => ret_int (MessagesQos2Received (metrics_Result (metrics values))) |};
  {| Type' := GaugeValue;
     Desc := NewDesc (BuildFQName namespace "metric" "packets_suback")
               "The amount of packets suback"
               defaultLabels [];
     Value := fun values => ret_int (PacketsSuback (metrics_Result (metrics values))) |};
  {| Type' := GaugeValue;
     Desc := NewDesc (BuildFQName namespace "metric" "packets_pubcomp_received")
               "The amount of packets pubcomp received"
               defaultLabels [];
     Value := fun values => ret_int (PacketsPubcompReceived (metrics_Result (metrics values))) |};
  {| Type' := GaugeValue;
     Desc := NewDesc (BuildFQName namespace "metric" "packets_unsuback")
               "The amount of packets unsuback"
               defaultLabels [];
     Value := fun values => ret_int (PacketsUnsuback (metrics_Result (metrics values))) |};
  {| Type' := GaugeValue;
     Desc := NewDesc (BuildFQName namespace "metric" "packets_pingresp")
               "The amount of packets pingresp"
               defaultLabels [];
     Value := fun values => ret_int (PacketsPingresp (metrics_Result (metrics values))) |};
  {| Type' := GaugeValue;
     Desc := NewDesc (BuildFQName namespace "metric" "packets_pingreq")
               "The amount of packets pingreq"
               defaultLabels [];
     Value := fun values => ret_int (PacketsPingreq (metrics_Result (metrics values))) |};
  {| Type' := GaugeValue;
     Desc := NewDesc (BuildFQName namespace "metric" "packets_pubrel_missed")
               "The amount of packets pubrel missed"
               defaultLabels [];
     Value := fun values => ret_int (PacketsPubrelMissed (metrics_Result (metrics values))) |};
  {| Type' := GaugeValue;
     Desc := NewDesc (BuildFQName namespace "metric" "packets_sent")
               "The amount of packets sent"
               defaultLabels [];
     Value := fun values => ret_int (PacketsSent (metrics_Result (metrics values))) |};
  {| Type' := GaugeValue;
     Desc := NewDesc (BuildFQName namespace "metric" "messages_qos2_sent")
               "The amount of QOS2 messages sent"
               defaultLabels [];
     Value := fun values => ret_int (MessagesQos2Sent (metrics_Result (metrics values))) |};
  {| Type' := GaugeValue;
     Desc := NewDesc (BuildFQName namespace "metric" "packets_pubrec_missed")
               "The amount of packets pubrec missed"
               defaultLabels [];
     Value := fun values => ret_int (PacketsPubrecMissed (metrics_Result (metrics values))) |};
  {| Type' := GaugeValue;
     Desc := NewDesc (BuildFQName namespace "metric" "packets_unsubscribe")
               "The amount of packets disconnected"
               defaultLabels [];
     Value := fun values => ret_int (PacketsUnsubscribe (metrics_Result (metrics values))) |};
  {| Type' := GaugeValue;
     Desc := NewDesc (BuildFQName namespace "metric" "bytes_received")
               "The amount of bytes received"
               defaultLabels [];
     Value := fun values => ret_int (BytesReceived (metrics_Result (metrics values))) |};
  {| Type' := GaugeValue;
     Desc := NewDesc (BuildFQName namespace "metric" "packets_connack")
               "The amount of packets connack"
               defaultLabels [];
     Value := fun values => ret_int (PacketsConnack (metrics_Result (metrics values))) |};
  {| Type' := GaugeValue;
     Desc := NewDesc (BuildFQName namespace "metric" "messages_received")
               "The amount of messages received"
               defaultLabels [];
     Value := fun values => ret_int (MessagesReceived (metrics_Result (metrics values))) |};
  {| Type' := GaugeValue;
     Desc := NewDesc (BuildFQName namespace "metric" "messages_dropped")
               "The amount of messages dropped"
               defaultLabels [];
     Value := fun values => ret_int (MessagesDropped (metrics_Result (metrics values))) |};
  {| Type' := GaugeValue;
     Desc := NewDesc (BuildFQName namespace "metric" "packets_pubrec_sent")
               "The amount of packets pubrec sent"
               defaultLabels [];
     Value := fun values => ret_int (PacketsPubrecSent (metrics_Result (metrics values))) |};
  {| Type' := GaugeValue;
     Desc := NewDesc (BuildFQName namespace "metric" "messages_retained")
               "The amount of messages retained"
               defaultLabels [];
     Value := fun values => ret_int (MessagesRetained (metrics_Result (metrics values))) |};
  {| Type' := GaugeValue;
     Desc := NewDesc (BuildFQName namespace "metric" "packets_publish_received")
               "The amount of packets publish received"
               defaultLabels [];
     Value := fun values => ret_int (PacketsPublishReceived (metrics_Result (metrics values))) |};
  {| Type' := GaugeValue;
     Desc := NewDesc (BuildFQName namespace "metric" "packets_pubcomp_sent")
               "The amount of packets pubcomp sent"
               defaultLabels [];
     Value := fun values => ret_int (PacketsPubcompSent (metrics_Result (metrics values))) |};
  {| Type' := GaugeValue;
     Desc := NewDesc (BuildFQName namespace "metric" "packets_connect")
               "The amount of packets connect"
               defaultLabels [];
     Value := fun values => ret_int (PacketsConnect (metrics_Result (metrics values))) |};
  {| Type' := GaugeValue;
     Desc := NewDesc (BuildFQName namespace "metric" "packets_puback_received")
               "The amount of packets puback received"
               defaultLabels [];
     Value := fun values => ret_int (PacketsPubackReceived (metrics_Result (metrics values))) |};
  {| Type' := GaugeValue;
     Desc := NewDesc (BuildFQName namespace "metric" "messages_sent")
               "The amount of messages sent"
               defaultLabels [];
     Value := fun values => ret_int (MessagesSent (metrics_Result (metrics values))) |};
  {| Type' := GaugeValue;
     Desc := NewDesc (BuildFQName namespace "metric" "packets_publish_sent")
               "The amount of packets publish sent"
               defaultLabels [];
     Value := fun values => ret_int (PacketsPublishSent (metrics_Result (metrics values))) |};
  {| Type' := GaugeValue;
     Desc := NewDesc (BuildFQName namespace "metric" "bytes_sent")
               "The amount of bytes sent"
               defaultLabels [];
     Value := fun values => ret_int (BytesSent (metrics_Result (metrics values))) |};
  {| Type' := GaugeValue;
     Desc := NewDesc (BuildFQName namespace "metric" "packets_puback_sent")
               "The amount of packets puback sent"
               defaultLabels [];
     Value := fun values => ret_int (PacketsPubackSent (metrics_Result (metrics values))) |};
  {| Type' := GaugeValue;
     Desc := NewDesc (BuildFQName namespace "metric" "messages_qos2_dropped")
               "The amount of QOS2 messages dropped"
               defaultLabels [];
     Value := fun values => ret_int (MessagesQos2Dropped (metrics_Result (metrics values))) |};
  {| Type' := GaugeValue;
     Desc := NewDesc (BuildFQName namespace "metric" "packets_pubrel_sent")
               "The amount of packets pubrel sent"
               defaultLabels [];
     Value := fun values => ret_int (PacketsPubrelSent (metrics_Result (metrics values))) |};
  {| Type' := GaugeValue;
     Desc := NewDesc (BuildFQName namespace "metric" "messages_qos1_sent")
               "The amount of QOS1 messages sent"
               defaultLabels [];
     Value := fun values => ret_int (MessagesQos1Sent (metrics_Result (metrics values))) |};
  {| Type' := GaugeValue;
     Desc := NewDesc (BuildFQName namespace "metric" "packets_pubrel_received")
               "The amount of packets pubrel received"
               defaultLabels [];
     Value := fun values => ret_int (PacketsPubrelReceived (metrics_Result (metrics values))) |};
  {| Type' := GaugeValue;
     Desc := NewDesc (BuildFQName namespace "metric" "messages_qos1_received")
               "The amount of QOS1 messages received"
               defaultLabels [];
     Value := fun values => ret_int (MessagesQos1Received (metrics_Result (metrics values))) |};
  {| Type' := GaugeValue;
     Desc := NewDesc (BuildFQName namespace "metric" "messages_qos0_sent")
               "The amount of QOS0 messages sent"
               defaultLabels [];
     Value := fun values => ret_int (MessagesQos0Sent (metrics_Result (metrics values))) |};
  {| Type' := GaugeValue;
     Desc := NewDesc (BuildFQName namespace "metric" "packets_received")
               "The amount of packets received"
               defaultLabels [];
     Value := fun values => ret_int (PacketsReceived (metrics_Result (metrics values))) |};
  {| Type' := GaugeValue;
     Desc := NewDesc (BuildFQName namespace "metric" "packets_pubrec_received")
               "The amount of packets pubrec received"
               defaultLabels [];
     Value := fun values => ret_int (PacketsPubrecReceived (metrics_Result (metrics values))) |};
  {| Type' := GaugeValue;
     Desc := NewDesc (BuildFQName namespace "metric" "packets_pubcomp_missed")
               "The amount of packets pubcomp missed"
               defaultLabels [];
     Value := fun values => ret_int (PacketsPubcompMissed (metrics_Result (metrics values))) |};
  {| Type' := GaugeValue;
     Desc := NewDesc (BuildFQName namespace "metric" "packets_puback_missed")
               "The amount of packets puback missed"
               defaultLabels [];
     Value := fun values => ret_int (PacketsPubackMissed (metrics_Result (metrics values))) |};
  {| Type' := GaugeValue;
     Desc := NewDesc (BuildFQName namespace "stats" "clients")
               "The amount of clients using in the EMQ node."
               defaultLabels [];
     Value := fun values => ret_int (ClientsCount (stats_Result (stats values))) |};
  {| Type' := GaugeValue;
     Desc := NewDesc (BuildFQName namespace "stats" "retained")
               "The amount of retained messages in the EMQ node."
               defaultLabels [];
     Value := fun values => ret_int (RetainedCount (stats_Result (stats values))) |};
  {| Type' := GaugeValue;
     Desc := NewDesc (BuildFQName namespace "stats" "routes")
               "The amount of routes in use by the EMQ node."
               defaultLabels [];
     Value := fun values => ret_int (RoutesCount (stats_Result (stats values))) |};
  {| Type' := GaugeValue;
     Desc := NewDesc (BuildFQName namespace "stats" "sessions")
               "The amount of sessions in use by the EMQ node."
               defaultLabels [];
     Value := fun values => ret_int (SessionsCount (stats_Result (stats values))) |};
  {| Type' := GaugeValue;
     Desc := NewDesc (BuildFQName namespace "stats" "subscribers")
               "The amount of subscribers using the EMQ node."
               defaultLabels [];
     Value := fun values => ret_int (SubscribersCount (stats_Result (stats values))) |};
  {| Type' := GaugeValue;
     Desc := NewDesc (BuildFQName namespace "stats" "subscriptions")
               "The amount of subscriptions in use by the EMQ node."
               defaultLabels [];
     Value := fun values => ret_int (SubscribersCount (stats_Result (stats values))) |};
  {| Type' := GaugeValue;
     Desc := NewDesc (BuildFQName namespace "stats" "topics")
               "The amount of topics being used in the EMQ node."
               defaultLabels [];
     Value := fun values => ret_int (TopicsCount (stats_Result (stats values))) |}
].

(** *** Collector state and the outside world *)

(** The [url.URL] value.  [c.url] is a [**url.URL]: the collector holds a
    pointer to the pointer variable of the command-line flag, so the
    [url.URL] object itself is shared by every user of the flag value. *)
Record URL : Type := {
  Scheme : string;
  Host : string;
  Path : string
}.

Record Request : Type := {
  Method : string;
  RequestURL : string;
  BasicAuth : option (string * string)
}.

Record Response : Type := {
  StatusCode : Z;
  Body : string
}.

Definition StatusOK : Z := 200.

Definition SetBasicAuth (r : Request) (user pass : string) : Request :=
  {| Method := Method r; RequestURL := RequestURL r;
     BasicAuth := Some (user, pass) |}.

(** The library calls whose result depends on the outside world: URL
    printing, request construction, the HTTP round trip and the JSON
    decoding of a body into each payload type. *)
Record Env : Type := {
  URL_String : URL -> string;
  NewRequest : string -> string -> Request + string;
  Do : Request -> Response + string;
  decodeNodes : string -> nodesResponse + string;
  decodeMetrics : string -> metricsResponse + string;
  decodeStats : string -> statsResponse + string;
  decodeManagement : string -> managementResponse + string
}.

Record Collector : Type := {
  url : URL;
  node : string;
  password : string;
  username : string;
  up : Gauge;
  totalScrapes : Counter;
  jsonParseFailures : Counter;
  c_metrics : list metric
}.

(** [NewEMQCollector]; the [*http.Client] argument is the [Do] of the
    environment. *)
Definition NewEMQCollector (u : URL) (nodeName user pass : string)
  : Collector :=
  {| url := u;
     node := nodeName;
     username := user;
     password := pass;
     up := NewGauge (BuildFQName namespace "node" "up")
             "Was the last scrape of the EMQ node successful.";
     totalScrapes :=
       NewCounter (BuildFQName namespace "node" "total_scrapes")
         "Current total scrapes.";
     jsonParseFailures :=
       NewCounter (BuildFQName namespace "node" "json_parse_failures")
         "Number of errors while parsing JSON.";
     c_metrics := registry |}.

Definition with_Path (c : Collector) (p : string) : Collector :=
  {| url := {| Scheme := Scheme (url c); Host := Host (url c); Path := p |};
     node := node c; password := password c; username := username c;
     up := up c; totalScrapes := totalScrapes c;
     jsonParseFailures := jsonParseFailures c; c_metrics := c_metrics c |}.

Definition with_up (c : Collector) (v : float64) : Collector :=
  {| url := url c;
     node := node c; password := password c; username := username c;
     up := Set_ (up c) v; totalScrapes := totalScrapes c;
     jsonParseFailures := jsonParseFailures c; c_metrics := c_metrics c |}.

Definition inc_totalScrapes (c : Collector) : Collector :=
  {| url := url c;
     node := node c; password := password c; username := username c;
     up := up c; totalScrapes := Inc (totalScrapes c);
     jsonParseFailures := jsonParseFailures c; c_metrics := c_metrics c |}.

Definition inc_jsonParseFailures (c : Collector) : Collector :=
  {| url := url c;
     node := node c; password := password c; username := username c;
     up := up c; totalScrapes := totalScrapes c;
     jsonParseFailures := Inc (jsonParseFailures c);
     c_metrics := c_metrics c |}.

(** The three ways a fetch fails.  [RequestFailed] is the
    [fmt.Errorf("failed to get ... from %s://%s:%s%s: %s", ...)] built both
    when the request cannot be constructed and when it cannot be sent;
    [HTTPStatus] is ["HTTP Request failed with code %d"]; [DecodeFailed] is
    the decoder's error handed on. *)
Inductive error : Type :=
| RequestFailed (what : string) (u : URL) (cause : string)
| HTTPStatus (code : Z)
| DecodeFailed (cause : string).

Inductive log_entry : Type :=
| LogError (e : error)
| LogMessage (s : string).

Section Cycle.

Variable E : Env.

(** *** The four fetch operations

    The four functions of the source are one text up to the path, the word
    in the error message and the payload type; [fetchAndDecode] is that text.
<<
    u := *c.url
    u.Path = path
    req, err := http.NewRequest("GET", u.String(), nil)
    if err != nil { return chr, fmt.Errorf(...) }
    req.SetBasicAuth(c.username, c.password)
    res, err := c.client.Do(req)
    if err != nil { return chr, fmt.Errorf(...) }
    if res.StatusCode != http.StatusOK { return chr, fmt.Errorf(...) }
    if err := json.NewDecoder(res.Body).Decode(&chr); err != nil {
        c.jsonParseFailures.Inc()
        return chr, err
    }
    return chr, nil
>>
    [u := *c.url] copies a pointer, so [u.Path = path] writes the [url.URL]
    the collector shares: the write is kept in the returned state. *)
Definition fetchAndDecode (T : Type) (what path : string)
    (decode : string -> T + string) (c : Collector)
  : Collector * (T + error) :=
  let c := with_Path c path in
  let u := url c in
  match NewRequest E "GET" (URL_String E u) with
  | inr err => (c, inr (RequestFailed what u err))
  | inl req =>
      let req := SetBasicAuth req (username c) (password c) in
      match Do E req with
      | inr err => (c, inr (RequestFailed what u err))
      | inl res =>
          if negb (StatusCode res =? StatusOK) then
            (c, inr (HTTPStatus (StatusCode res)))
          else
            match decode (Body res) with
            | inr err => (inc_jsonParseFailures c, inr (DecodeFailed err))
            | inl chr => (c, inl chr)
            end
      end
  end.

Definition fetchAndDecodeNodes (c : Collector)
  : Collector * (nodesResponse + error) :=
  fetchAndDecode "nodes response" ("/api/v2/monitoring/nodes/" ++ node c)
    (decodeNodes E) c.

Definition fetchAndDecodeMetrics (c : Collector)
  : Collector * (metricsResponse + error) :=
  fetchAndDecode "metrics" ("/api/v2/monitoring/metrics/" ++ node c)
    (decodeMetrics E) c.

Definition fetchAndDecodeStats (c : Collector)
  : Collector * (statsResponse + error) :=
  fetchAndDecode "stats" ("/api/v2/monitoring/stats/" ++ node c)
    (decodeStats E) c.

Definition fetchAndDecodeManagment (c : Collector)
  : Collector * (managementResponse + error) :=
  fetchAndDecode "management info" "/api/v2/management/nodes"
    (decodeManagement E) c.

(** *** Describe *)

Definition Describe (c : Collector) : list Desc_t :=
  (map Desc (c_metrics c) ++
   [ NewDesc (gauge_Name (up c)) (gauge_Help (up c)) [] [];
     NewDesc (counter_Name (totalScrapes c))
       (counter_Help (totalScrapes c)) [] [];
     NewDesc (counter_Name (jsonParseFailures c))
       (counter_Help (jsonParseFailures c)) [] [] ])%list.

(** *** Collect *)

(** What one run of [Collect] did: the collector state it leaves, the
    metrics it sent on the channel in order, the lines it logged, and the
    panic it ended with, if any. *)
Record run_result : Type := {
  after : Collector;
  sent : list Metric;
  logs : list log_entry;
  panic : option string
}.

(** [for _, v := range management.Result { if v.Name == c.node {
    managementData = v } }]: every matching record is assigned in turn. *)
Definition select_management (nodeName : string)
    (records : list ManagementResponseResult) : ManagementResponseResult :=
  fold_left
    (fun managementData v =>
       if String.eqb (Name v) nodeName then v else managementData)
    records zero_ManagementResponseResult.

(** [for _, metric := range c.metrics { ch <- MustNewConstMetric(...) }]:
    the samples sent, the lines logged by the value functions, and the
    panic that stopped the loop, if one did. *)
Fixpoint send_metrics (ms : list metric) (values : combinedResponse)
    (managementData : ManagementResponseResult)
  : list Metric * list log_entry * option string :=
  match ms with
  | [] => ([], [], None)
  | m :: rest =>
      match Value m values with
      | Panicked reason => ([], [], Some reason)
      | Returned v lines =>
          match MustNewConstMetric (Desc m) (Type' m) v
                  [ NodeName (nodes_Result (nodes values));
                    Release (nodes_Result (nodes values));
                    Version managementData ] with
          | Panicked reason => ([], map LogMessage lines, Some reason)
          | Returned sample _ =>
              let '(samples, lines', p) :=
                send_metrics rest values managementData in
              (sample :: samples, (map LogMessage lines ++ lines')%list, p)
          end
      end
  end.

(** The branch taken when a fetch fails: [c.up.Set(0); log.Error(err);
    return]. *)
Definition fetch_failed (c : Collector) (err : error) : run_result :=
  {| after := with_up c (of_int 0); sent := []; logs := [LogError err];
     panic := None |}.

(** The body of [Collect] between the deferred function's registration and
    its execution. *)
Definition Collect_body (c : Collector) : run_result :=
  match fetchAndDecodeNodes c with
  | (c, inr err) => fetch_failed c err
  | (c, inl nodes_) =>
  match fetchAndDecodeMetrics c with
  | (c, inr err) => fetch_failed c err
  | (c, inl metrics_) =>
  match fetchAndDecodeStats c with
  | (c, inr err) => fetch_failed c err
  | (c, inl stats_) =>
  match fetchAndDecodeManagment c with
  | (c, inr err) => fetch_failed c err
  | (c, inl management) =>
      let ClusterSize_ :=
        Z.of_nat (List.length (management_Result management)) in
      let managementData :=
        select_management (node c) (management_Result management) in
      let values :=
        {| nodes := nodes_; metrics := metrics_; stats := stats_;
           ClusterSize := ClusterSize_ |} in
      let c :=
        if nodes_Code (nodes values) =? 0
        then with_up c (of_int 1)
        else with_up c (of_int 0) in
      let '(samples, lines, p) :=
        send_metrics (c_metrics c) values managementData in
      {| after := c; sent := samples; logs := lines; panic := p |}
  end end end end.

(** [Collect]: the counter is incremented first; the deferred function
    sends the three collector-owned metrics when the body is left, by a
    return or by a panic. *)
Definition Collect (c : Collector) : run_result :=
  let c := inc_totalScrapes c in
  let r := Collect_body c in
  {| after := after r;
     sent := (sent r ++ [ GaugeMetric (up (after r));
                          CounterMetric (totalScrapes (after r));
                          CounterMetric (jsonParseFailures (after r)) ])%list;
     logs := logs r;
     panic := panic r |}.

End Cycle.

(** ** Reading aids for the statements

    Definitions used to state the properties: the phases of [Collect_body]
    named one by one, the four operations under one index, and the wording
    of the specification for the memory fields. *)

(** The four fetches of [Collect_body] in their order, stopping at the
    first failure. *)
Definition fetch_phase (E : Env) (c : Collector)
  : Collector *
    (nodesResponse * metricsResponse * statsResponse * managementResponse
     + error) :=
  match fetchAndDecodeNodes E c with
  | (c, inr err) => (c, inr err)
  | (c, inl n) =>
  match fetchAndDecodeMetrics E c with
  | (c, inr err) => (c, inr err)
  | (c, inl m) =>
  match fetchAndDecodeStats E c with
  | (c, inr err) => (c, inr err)
  | (c, inl s) =>
  match fetchAndDecodeManagment E c with
  | (c, inr err) => (c, inr err)
  | (c, inl g) => (c, inl (n, m, s, g))
  end end end end.

(** The snapshot [Collect_body] assembles from four decoded payloads. *)
Definition snapshot (n : nodesResponse) (m : metricsResponse)
    (s : statsResponse) (g : managementResponse) : combinedResponse :=
  {| nodes := n; metrics := m; stats := s;
     ClusterSize := Z.of_nat (List.length (management_Result g)) |}.

Inductive operation : Type :=
| OpNodes
| OpMetrics
| OpStats
| OpManagement.

Definition error_of (T : Type) (r : T + error) : option error :=
  match r with
  | inl _ => None
  | inr e => Some e
  end.

(** The state an operation leaves and the error it returns, if any. *)
Definition perform (E : Env) (op : operation) (c : Collector)
  : Collector * option error :=
  match op with
  | OpNodes =>
      let '(c', r) := fetchAndDecodeNodes E c in (c', error_of r)
  | OpMetrics =>
      let '(c', r) := fetchAndDecodeMetrics E c in (c', error_of r)
  | OpStats =>
      let '(c', r) := fetchAndDecodeStats E c in (c', error_of r)
  | OpManagement =>
      let '(c', r) := fetchAndDecodeManagment E c in (c', error_of r)
  end.

Definition path_of (op : operation) (c : Collector) : string :=
  match op with
  | OpNodes => "/api/v2/monitoring/nodes/" ++ node c
  | OpMetrics => "/api/v2/monitoring/metrics/" ++ node c
  | OpStats => "/api/v2/monitoring/stats/" ++ node c
  | OpManagement => "/api/v2/management/nodes"
  end.

(** Whether the body decodes into the payload type of the operation. *)
Definition decode_error (E : Env) (op : operation) (body : string)
  : option string :=
  match op with
  | OpNodes => match decodeNodes E body with inl _ => None | inr e => Some e end
  | OpMetrics =>
      match decodeMetrics E body with inl _ => None | inr e => Some e end
  | OpStats => match decodeStats E body with inl _ => None | inr e => Some e end
  | OpManagement =>
      match decodeManagement E body with inl _ => None | inr e => Some e end
  end.

(** The HTTP response the operation receives, when the request could be
    built and sent. *)
Definition response_to (E : Env) (op : operation) (c : Collector)
  : option Response :=
  let c' := with_Path c (path_of op c) in
  match NewRequest E "GET" (URL_String E (url c')) with
  | inr _ => None
  | inl req =>
      match Do E (SetBasicAuth req (username c') (password c')) with
      | inr _ => None
      | inl res => Some res
      end
  end.

(** The metric of the registry with a given fully qualified name, and its
    position. *)
Fixpoint lookup_metric (name : string) (ms : list metric)
  : option (nat * metric) :=
  match ms with
  | [] => None
  | m :: rest =>
      if String.eqb (fqName (Desc m)) name then Some (O, m)
      else match lookup_metric name rest with
           | Some (i, m') => Some (S i, m')
           | None => None
           end
  end.

(** The sample [Collect] sends for a metric of the registry. *)
Definition value_of (m : metric) (values : combinedResponse) : float64 :=
  match Value m values with
  | Returned v _ => v
  | Panicked _ => zero
  end.

Definition sample (values : combinedResponse)
    (managementData : ManagementResponseResult) (m : metric) : Metric :=
  ConstMetric (Desc m) (Type' m) (value_of m values)
    [ NodeName (nodes_Result (nodes values));
      Release (nodes_Result (nodes values));
      Version managementData ].

(** The three collector-owned series, as the deferred function sends
    them. *)
Definition meta_series (c : Collector) : list Metric :=
  [ GaugeMetric (up c); CounterMetric (totalScrapes c);
    CounterMetric (jsonParseFailures c) ].

Definition is_sample (x : Metric) : bool :=
  match x with
  | ConstMetric _ _ _ _ => true
  | _ => false
  end.

(** The name of a sample. *)
Definition sample_name (x : Metric) : option string :=
  match x with
  | ConstMetric d _ _ _ => Some (fqName d)
  | _ => None
  end.

(** The [version] label of a sample: its third label value. *)
Definition version_label (x : Metric) : option string :=
  match x with
  | ConstMetric _ _ _ labelValues => nth_error labelValues 2
  | _ => None
  end.

Definition named (nodeName : string) (v : ManagementResponseResult) : bool :=
  String.eqb (Name v) nodeName.

(** What a fetch does after its write to [u.Path]: everything from
    [u.String()] on reads the shared [url.URL] as it then is. *)
Definition send_and_decode (E : Env) (T : Type) (what : string)
    (decode : string -> T + string) (c : Collector)
  : Collector * (T + error) :=
  let u := url c in
  match NewRequest E "GET" (URL_String E u) with
  | inr err => (c, inr (RequestFailed what u err))
  | inl req =>
      let req := SetBasicAuth req (username c) (password c) in
      match Do E req with
      | inr err => (c, inr (RequestFailed what u err))
      | inl res =>
          if negb (StatusCode res =? StatusOK) then
            (c, inr (HTTPStatus (StatusCode res)))
          else
            match decode (Body res) with
            | inr err => (inc_jsonParseFailures c, inr (DecodeFailed err))
            | inl chr => (c, inl chr)
            end
      end
  end.

(** The fields of the collector no fetch touches. *)
Definition same_outside_fetch (c c' : Collector) : Prop :=
  node c' = node c /\ username c' = username c /\
  password c' = password c /\ up c' = up c /\
  totalScrapes c' = totalScrapes c /\ c_metrics c' = c_metrics c /\
  Scheme (url c') = Scheme (url c) /\ Host (url c') = Host (url c).

(** *** The specification's wording for the memory fields *)

Module MemorySpec.

Definition starts_with_digit (s : string) : bool :=
  match s with
  | EmptyString => false
  | String a _ => is_digit a
  end.

Fixpoint take_digits (s : string) : string :=
  match s with
  | EmptyString => EmptyString
  | String a s' =>
      if is_digit a then String a (take_digits s') else EmptyString
  end.

Fixpoint drop_digits (s : string) : string :=
  match s with
  | EmptyString => EmptyString
  | String a s' => if is_digit a then drop_digits s' else s
  end.

(** The maximal run of digits at the start of [s], extended by one decimal
    point and the maximal run of digits after it when the point has a digit
    on both sides. *)
Definition run_at (s : string) : string :=
  let whole := take_digits s in
  match drop_digits s with
  | EmptyString => whole
  | String a rest =>
      if Ascii.eqb a "." then
        match take_digits rest with
        | EmptyString => whole
        | fraction => whole ++ String a fraction
        end
      else whole
  end.

(** The first such run of [s], from the left. *)
Fixpoint first_run (s : string) : option string :=
  match s with
  | EmptyString => None
  | String a s' => if is_digit a then Some (run_at s) else first_run s'
  end.

End MemorySpec.

Import MemorySpec.

(** ** A broker to run the collector against *)

Module Fixture.

Definition plain_String (u : URL) : string :=
  Scheme u ++ "://" ++ Host u ++ Path u.

Definition base : URL :=
  {| Scheme := "http"; Host := "127.0.0.1:8080"; Path := "" |}.

Definition nodeName : string := "emq@127.0.0.1".

Definition collector : Collector :=
  NewEMQCollector base nodeName "admin" "public".

Definition nodes_payload (memory : string) (code : Z) : nodesResponse :=
  {| nodes_Result :=
       {| NodeName := nodeName; Release := "R20/9.2"; Status := "Running";
          MemoryTotal := memory; MemoryUsed := "64.25M";
          ProcessesAvailable := 262144; ProcessesUsed := 331; MaxFds := 1024;
          Clients := 7; Load1 := "1.20"; Load5 := "1.10"; Load15 := "1.05" |};
     nodes_Code := code |}.

Definition metrics_payload : metricsResponse :=
  {| metrics_Result :=
       {| MessagesDropped := 1; PacketsReceived := 2;
          PacketsPubcompReceived := 3; PacketsUnsuback := 4;
          PacketsPingresp := 5; PacketsPingreq := 6; MessagesQos0Sent := 7;
          MessagesQos2Received := 8; PacketsPubcompMissed := 9;
          MessagesRetained := 10; PacketsSuback := 11; BytesSent := 12;
          PacketsPubackReceived := 13; PacketsPubrecReceived := 14;
          MessagesQos2Sent := 15; PacketsPubrecSent := 16;
          PacketsPubackSent := 17; PacketsPubrelMissed := 18;
          PacketsConnect := 19; MessagesQos1Sent := 20; PacketsConnack := 21;
          PacketsPubrelReceived := 22; PacketsPublishReceived := 23;
          BytesReceived := 24; PacketsPubrelSent := 25;
          PacketsPubrecMissed := 26; PacketsSent := 27;
          MessagesQos0Received := 28; PacketsPubcompSent := 29;
          MessagesReceived := 30; MessagesSent := 31; PacketsSubscribe := 32;
          MessagesQos2Dropped := 33; PacketsUnsubscribe := 34;
          MessagesQos1Received := 35; PacketsDisconnect := 36;
          PacketsPublishSent := 37; PacketsPubackMissed := 38 |};
     metrics_Code := 0 |}.

Definition stats_payload : statsResponse :=
  {| stats_Result :=
       {| ClientsCount := 7; ClientsMax := 9; RetainedCount := 2;
          RetainedMax := 2; RoutesCount := 5; RoutesMax := 6;
          SessionsCount := 7; SessionsMax := 9; SubscribersCount := 41;
          SubscribersMax := 50; SubscriptionsCount := 43;
          SubscriptionsMax := 60; TopicsCount := 5; TopicsMax := 6 |};
     stats_Code := 0 |}.

Definition member (name version : string) : ManagementResponseResult :=
  {| Name := name; Version := version; Sysdescr := "EMQ"; Uptime := "1 days";
     Datetime := "2018-01-01 00:00:00"; OtpRelease := "R20/9.2";
     NodeStatus := "Running" |}.

Definition management_payload (members : list ManagementResponseResult)
  : managementResponse :=
  {| management_Result := members; management_Code := 0 |}.

(** A broker: it answers the request for a URL with the status [status]
    gives it and a body naming the URL; a payload that is [None] stands for
    a body that does not decode. *)
Definition broker (reachable : bool) (status : string -> Z)
    (n : option nodesResponse) (m : option metricsResponse)
    (s : option statsResponse) (g : option managementResponse) : Env :=
  let decode (T : Type) (v : option T) (body : string) : T + string :=
    match v with
    | Some x => inl x
    | None => inr "unexpected end of JSON input"
    end in
  {| URL_String := plain_String;
     NewRequest := fun method u =>
       inl {| Method := method; RequestURL := u; BasicAuth := None |};
     Do := fun req =>
       if reachable
       then inl {| StatusCode := status (RequestURL req);
                   Body := RequestURL req |}
       else inr "connection refused";
     decodeNodes := decode _ n;
     decodeMetrics := decode _ m;
     decodeStats := decode _ s;
     decodeManagement := decode _ g |}.

Definition always_ok (u : string) : Z := 200.

(** The broker in good health, reporting [memory] as its total memory and
    the given cluster members. *)
Definition healthy (memory : string)
    (members : list ManagementResponseResult) : Env :=
  broker true always_ok (Some (nodes_payload memory 0))
    (Some metrics_payload) (Some stats_payload)
    (Some (management_payload members)).

(** A broker that serves the node-status endpoint and answers 404 to every
    other path. *)
Definition only_nodes (u : string) : Z :=
  if String.eqb u "http://127.0.0.1:8080/api/v2/monitoring/nodes/emq@127.0.0.1"
  then 200 else 404.

End Fixture.

(** *** Reading aids for the further properties *)

(** The order in which [Collect] calls the four operations. *)
Definition fetch_order : list operation :=
  [OpNodes; OpMetrics; OpStats; OpManagement].

(** The operations of a list performed one after the other on the state
    the previous one left, up to and including the first that fails. *)
Fixpoint perform_until_failure (E : Env) (ops : list operation)
    (c : Collector) : Collector * option error :=
  match ops with
  | [] => (c, None)
  | op :: rest =>
      match perform E op c with
      | (c', Some e) => (c', Some e)
      | (c', None) => perform_until_failure E rest c'
      end
  end.

(** Successive cycles, each against its own state of the broker and each
    started on the collector state the previous one left. *)
Definition cycles (Es : list Env) (c : Collector) : Collector :=
  fold_left (fun c E => after (Collect E c)) Es c.

(** Two collector states of one configuration: they may differ in the
    path left in the shared URL, in the health gauge and in the counters. *)
Definition same_config (c1 c2 : Collector) : Prop :=
  node c2 = node c1 /\ username c2 = username c1 /\
  password c2 = password c1 /\ Scheme (url c2) = Scheme (url c1) /\
  Host (url c2) = Host (url c1) /\ c_metrics c2 = c_metrics c1.

(** The URL an operation prints: the base address with its own path. *)
Definition endpoint (c : Collector) (op : operation) : URL :=
  {| Scheme := Scheme (url c); Host := Host (url c);
     Path := path_of op c |}.

(** Two environments that answer alike to the traffic of collector [c]:
    to the printing of its four endpoint URLs, to the construction of a GET
    request for each of them, to every request that carries the
    collector's credentials, and to the decoding of bodies. *)
Definition same_traffic (c : Collector) (E1 E2 : Env) : Prop :=
  (forall op, URL_String E1 (endpoint c op) = URL_String E2 (endpoint c op)) /\
  (forall op, NewRequest E1 "GET" (URL_String E1 (endpoint c op)) =
              NewRequest E2 "GET" (URL_String E1 (endpoint c op))) /\
  (forall r, BasicAuth r = Some (username c, password c) ->
             Do E1 r = Do E2 r) /\
  (forall b, decodeNodes E1 b = decodeNodes E2 b) /\
  (forall b, decodeMetrics E1 b = decodeMetrics E2 b) /\
  (forall b, decodeStats E1 b = decodeStats E2 b) /\
  (forall b, decodeManagement E1 b = decodeManagement E2 b).

(** The descriptor of a metric on the channel; for the gauge and the
    counters it is the one [Describe] builds from their options. *)
Definition desc_of (x : Metric) : Desc_t :=
  match x with
  | ConstMetric d _ _ _ => d
  | GaugeMetric g => NewDesc (gauge_Name g) (gauge_Help g) [] []
  | CounterMetric c => NewDesc (counter_Name c) (counter_Help c) [] []
  end.

(** Whether the strings of a list are pairwise different. *)
Fixpoint distinctb (l : list string) : bool :=
  match l with
  | [] => true
  | x :: rest =>
      negb (existsb (String.eqb x) rest) && distinctb rest
  end.

Fixpoint has_digit (s : string) : bool :=
  match s with
  | EmptyString => false
  | String a s' => is_digit a || has_digit s'
  end.

(** The binary64 values that are +0, a positive finite number or +Inf:
    neither NaN nor negative. *)
Definition is_nonneg_number (x : float64) : bool :=
  match x with
  | S754_zero false | S754_finite false _ _ | S754_infinity false => true
  | _ => false
  end.

(** Whether text put after a numeral would be read as more of it: it
    starts with a digit or with a decimal point. *)
Definition extends_numeral (t : string) : bool :=
  match t with
  | EmptyString => false
  | String a _ => is_digit a || Ascii.eqb a "."
  end.

(** The snapshot with every field no value function reads blanked: of the
    node status the status text, the client count and the three load
    averages; of the protocol counters [PacketsSubscribe] and
    [MessagesQos0Received]; of the broker statistics every maximum and the
    subscriptions count; and the three embedded codes. *)
Definition exposed_view (values : combinedResponse) : combinedResponse :=
  {| nodes :=
       {| nodes_Result :=
            {| NodeName := NodeName (nodes_Result (nodes values));
               Release := Release (nodes_Result (nodes values));
               Status := "";
               MemoryTotal := MemoryTotal (nodes_Result (nodes values));
               MemoryUsed := MemoryUsed (nodes_Result (nodes values));
               ProcessesAvailable := ProcessesAvailable (nodes_Result (nodes values));
               ProcessesUsed := ProcessesUsed (nodes_Result (nodes values));
               MaxFds := MaxFds (nodes_Result (nodes values));
               Clients := 0; Load1 := ""; Load5 := ""; Load15 := "" |};
          nodes_Code := 0 |};
     metrics :=
       {| metrics_Result :=
            {| MessagesDropped := MessagesDropped (metrics_Result (metrics values));
               PacketsReceived := PacketsReceived (metrics_Result (metrics values));
               PacketsPubcompReceived := PacketsPubcompReceived (metrics_Result (metrics values));
               PacketsUnsuback := PacketsUnsuback (metrics_Result (metrics values));
               PacketsPingresp := PacketsPingresp (metrics_Result (metrics values));
               PacketsPingreq := PacketsPingreq (metrics_Result (metrics values));
               MessagesQos0Sent := MessagesQos0Sent (metrics_Result (metrics values));
               MessagesQos2Received := MessagesQos2Received (metrics_Result (metrics values));
               PacketsPubcompMissed := PacketsPubcompMissed (metrics_Result (metrics values));
               MessagesRetained := MessagesRetained (metrics_Result (metrics values));
               PacketsSuback := PacketsSuback (metrics_Result (metrics values));
               BytesSent := BytesSent (metrics_Result (metrics values));
               PacketsPubackReceived := PacketsPubackReceived (metrics_Result (metrics values));
               PacketsPubrecReceived := PacketsPubrecReceived (metrics_Result (metrics values));
               MessagesQos2Sent := MessagesQos2Sent (metrics_Result (metrics values));
               PacketsPubrecSent := PacketsPubrecSent (metrics_Result (metrics values));
               PacketsPubackSent := PacketsPubackSent (metrics_Result (metrics values));
               PacketsPubrelMissed := PacketsPubrelMissed (metrics_Result (metrics values));
               PacketsConnect := PacketsConnect (metrics_Result (metrics values));
               MessagesQos1Sent := MessagesQos1Sent (metrics_Result (metrics values));
               PacketsConnack := PacketsConnack (metrics_Result (metrics values));
               PacketsPubrelReceived := PacketsPubrelReceived (metrics_Result (metrics values));
               PacketsPublishReceived := PacketsPublishReceived (metrics_Result (metrics values));
               BytesReceived := BytesReceived (metrics_Result (metrics values));
               PacketsPubrelSent := PacketsPubrelSent (metrics_Result (metrics values));
               PacketsPubrecMissed := PacketsPubrecMissed (metrics_Result (metrics values));
               PacketsSent := PacketsSent (metrics_Result (metrics values));
               MessagesQos0Received := 0;
               PacketsPubcompSent := PacketsPubcompSent (metrics_Result (metrics values));
               MessagesReceived := MessagesReceived (metrics_Result (metrics values));
               MessagesSent := MessagesSent (metrics_Result (metrics values));
               PacketsSubscribe := 0;
               MessagesQos2Dropped := MessagesQos2Dropped (metrics_Result (metrics values));
               PacketsUnsubscribe := PacketsUnsubscribe (metrics_Result (metrics values));
               MessagesQos1Received := MessagesQos1Received (metrics_Result (metrics values));
               PacketsDisconnect := PacketsDisconnect (metrics_Result (metrics values));
               PacketsPublishSent := PacketsPublishSent (metrics_Result (metrics values));
               PacketsPubackMissed := PacketsPubackMissed (metrics_Result (metrics values)) |};
          metrics_Code := 0 |};
     stats :=
       {| stats_Result :=
            {| ClientsCount := ClientsCount (stats_Result (stats values));
               ClientsMax := 0;
               RetainedCount := RetainedCount (stats_Result (stats values));
               RetainedMax := 0;
               RoutesCount := RoutesCount (stats_Result (stats values));
               RoutesMax := 0;
               SessionsCount := SessionsCount (stats_Result (stats values));
               SessionsMax := 0;
               SubscribersCount := SubscribersCount (stats_Result (stats values));
               SubscribersMax := 0; SubscriptionsCount := 0;
               SubscriptionsMax := 0;
               TopicsCount := TopicsCount (stats_Result (stats values));
               TopicsMax := 0 |};
          stats_Code := 0 |};
     ClusterSize := ClusterSize values |}.

(** * Properties *)

(** ** The match of [validID] is the first run of the specification *)

Lemma point_not_digit : is_digit "." = false.
Proof. reflexivity. Qed.

Lemma eqb_point_not_digit (a : ascii) :
  Ascii.eqb a "." = true -> is_digit a = false.
Proof.
  intros H. apply Ascii.eqb_eq in H. subst a. apply point_not_digit.
Qed.

(** A greedy digit repetition followed by a continuation that refuses to
    start on a digit takes the whole run of digits, or nothing. *)
Lemma rep1_digit_maximal (k : string -> option string) :
  (forall t, starts_with_digit t = true -> k t = None) ->
  forall s,
    rep1 CDigit s k =
    if starts_with_digit s
    then option_map (String.append (take_digits s)) (k (drop_digits s))
    else None.
Proof.
  intros Hk s. induction s as [|a s IH]; simpl; [reflexivity|].
  destruct (is_digit a) eqn:Da; [|reflexivity].
  rewrite IH. destruct (starts_with_digit s) eqn:Ds.
  - destruct s as [|b s]; [discriminate|]. simpl in Ds. simpl. rewrite Ds.
    destruct (k (drop_digits s)) as [m|] eqn:Km; simpl; [reflexivity|].
    rewrite (Hk (String b s)); [reflexivity | exact Ds].
  - destruct s as [|b s]; simpl.
    + destruct (k EmptyString); reflexivity.
    + simpl in Ds. rewrite Ds. destruct (k (String b s)); reflexivity.
Qed.

(** With nothing required afterwards the repetition takes the whole run. *)
Lemma rep1_digit_all (s : string) :
  rep1 CDigit s (fun _ => Some EmptyString) =
  if starts_with_digit s then Some (take_digits s) else None.
Proof.
  induction s as [|a s IH]; simpl; [reflexivity|].
  destruct (is_digit a) eqn:Da; [|reflexivity].
  rewrite IH. destruct s as [|b s]; simpl; [reflexivity|].
  destruct (is_digit b); reflexivity.
Qed.

(** Anchored at a position, [validID] matches exactly the run the
    specification describes there, and only where a digit stands. *)
Lemma match_here_validID (s : string) :
  match_here validID s =
  if starts_with_digit s then Some (run_at s) else None.
Proof.
  unfold match_here, validID. cbn [run].
  rewrite rep1_digit_maximal.
  2:{ intros [|b t]; simpl; [discriminate|]. intros Db.
      destruct (Ascii.eqb b ".") eqn:Eb; [|reflexivity].
      apply eqb_point_not_digit in Eb. congruence. }
  rewrite rep1_digit_all.
  destruct (starts_with_digit s) eqn:Ds; [|reflexivity].
  unfold run_at. destruct (drop_digits s) as [|a rest] eqn:Dr; simpl.
  - reflexivity.
  - destruct (Ascii.eqb a ".") eqn:Ea; simpl; [|reflexivity].
    rewrite rep1_digit_all.
    destruct rest as [|b rest]; simpl; [reflexivity|].
    destruct (is_digit b); simpl; reflexivity.
Qed.

(** The first element of [FindAllString] is the first run. *)
Lemma FindAllString_head (s : string) :
  hd_error (FindAllString validID s) = first_run s.
Proof.
  unfold FindAllString.
  induction s as [|a s IH]; [reflexivity|].
  cbn [find_all first_run]. rewrite match_here_validID.
  cbn [starts_with_digit]. destruct (is_digit a); [reflexivity | exact IH].
Qed.

Lemma FindAllString_nth0 (s : string) :
  nth_error (FindAllString validID s) 0 = first_run s.
Proof.
  rewrite <- FindAllString_head.
  destruct (FindAllString validID s); reflexivity.
Qed.

(** The closure of a memory field, by cases on the first run. *)
Lemma memory_bytes_by_run (s : string) :
  memory_bytes s =
  match first_run s with
  | None => Panicked "index out of range [0] with length 0"
  | Some r =>
      Returned (mul (fst (ParseFloat r)) (of_int 1000000))
        match snd (ParseFloat r) with
        | Some _ => ["error converting string into number"]
        | None => []
        end
  end.
Proof.
  unfold memory_bytes. rewrite FindAllString_nth0.
  destruct (first_run s) as [r|]; [|reflexivity].
  destruct (ParseFloat r) as [i err]. reflexivity.
Qed.

(** ** The runs are numerals [ParseFloat] accepts *)

Lemma digit_not_point (a : ascii) :
  is_digit a = true -> Ascii.eqb a "." = false.
Proof.
  intros D. destruct (Ascii.eqb a ".") eqn:Ea; [|reflexivity].
  apply eqb_point_not_digit in Ea. congruence.
Qed.

Lemma all_digits_take (s : string) : all_digits (take_digits s) = true.
Proof.
  induction s as [|a s IH]; simpl; [reflexivity|].
  destruct (is_digit a) eqn:D; simpl; [|reflexivity].
  now rewrite D, IH.
Qed.

Lemma split_point_digits (d : string) :
  all_digits d = true -> split_point d = (d, None).
Proof.
  induction d as [|a d IH]; simpl; [reflexivity|].
  intros H. apply andb_true_iff in H. destruct H as [Da Hd].
  rewrite (digit_not_point _ Da), (IH Hd). reflexivity.
Qed.

Lemma split_point_fraction (d f : string) :
  all_digits d = true ->
  split_point (d ++ String "." f) = (d, Some f).
Proof.
  induction d as [|a d IH]; simpl; [reflexivity|].
  intros H. apply andb_true_iff in H. destruct H as [Da Hd].
  rewrite (digit_not_point _ Da), (IH Hd). reflexivity.
Qed.

(** The two shapes of a run: digits, or digits, a point and digits. *)
Lemma run_at_shape (s : string) :
  starts_with_digit s = true ->
  run_at s = take_digits s \/
  exists f, f <> EmptyString /\ all_digits f = true /\
            run_at s = (take_digits s ++ String "." f)%string.
Proof.
  intros Ds. unfold run_at.
  destruct (drop_digits s) as [|a rest]; [now left|].
  destruct (Ascii.eqb a ".") eqn:Ea; [|now left].
  apply Ascii.eqb_eq in Ea. subst a.
  destruct (take_digits rest) as [|b f] eqn:Tf; [now left|].
  right. exists (String b f). split; [discriminate|]. split.
  - rewrite <- Tf. apply all_digits_take.
  - reflexivity.
Qed.

Lemma first_run_some (s r : string) :
  first_run s = Some r ->
  exists t, starts_with_digit t = true /\ r = run_at t.
Proof.
  induction s as [|a s IH]; simpl; [discriminate|].
  destruct (is_digit a) eqn:Da.
  - intros H. inversion H. exists (String a s). split; [exact Da | reflexivity].
  - exact IH.
Qed.

Lemma take_digits_eqb_empty (t : string) :
  starts_with_digit t = true ->
  String.eqb (take_digits t) EmptyString = false.
Proof.
  destruct t as [|a t]; simpl; [discriminate|]. intros ->. reflexivity.
Qed.

(** On a run [ParseFloat] never answers with a syntax error: the only error
    the closure can log for it is a numeral out of the binary64 range. *)
Lemma ParseFloat_run (s r : string) :
  first_run s = Some r ->
  snd (ParseFloat r) = None \/
  (snd (ParseFloat r) = Some ErrRange /\
   exists sign, fst (ParseFloat r) = S754_infinity sign).
Proof.
  intros H. destruct (first_run_some _ H) as (t & Dt & ->).
  assert (W : forall i f, well_formed i f = true ->
            split_point (run_at t) = (i, f) ->
            snd (ParseFloat (run_at t)) = None \/
            (snd (ParseFloat (run_at t)) = Some ErrRange /\
             exists sign, fst (ParseFloat (run_at t)) = S754_infinity sign)).
  { intros i f Wf Sp. unfold ParseFloat. rewrite Sp, Wf.
    match goal with |- context [is_inf ?v] => destruct v as [z|z| |z mm ee] end;
      simpl; try (now left).
    right. split; [reflexivity | now exists z]. }
  destruct (run_at_shape _ Dt) as [E | (f & Nf & Df & E)]; rewrite E in *.
  - apply (W (take_digits t) None).
    + simpl. rewrite (take_digits_eqb_empty _ Dt), all_digits_take.
      reflexivity.
    + apply split_point_digits, all_digits_take.
  - apply (W (take_digits t) (Some f)).
    + simpl. rewrite all_digits_take, Df, (take_digits_eqb_empty _ Dt).
      reflexivity.
    + apply split_point_fraction, all_digits_take.
Qed.

(** ** Memory fields *)

(** The scale factor is the binary64 number one million, exactly. *)
Lemma million_exact :
  exists m e, of_int 1000000 = S754_finite false m e /\
              Z.pos m = 1000000 * 2 ^ (- e).
Proof.
  exists 8589934592000000%positive, (-33). split; reflexivity.
Qed.

(** C7.  A memory field that contains a digit: the closure takes the first
    maximal run of digits with an optional embedded decimal point (the
    first element [FindAllString] returns is that run), parses it with
    [ParseFloat] (never a syntax error on such a run) and returns the
    binary64 product of the parsed number and one million.  The field
    ["128.5MB"] gives 128500000. *)
Theorem memory_bytes_scales_first_run (s r : string)
    (Hrun : first_run s = Some r) :
  hd_error (FindAllString validID s) = Some r /\
  snd (ParseFloat r) <> Some ErrSyntax /\
  (exists lines,
     memory_bytes s =
     Returned (mul (fst (ParseFloat r)) (of_int 1000000)) lines) /\
  (exists m e, of_int 1000000 = S754_finite false m e /\
               Z.pos m = 1000000 * 2 ^ (- e)) /\
  first_run "128.5MB" = Some "128.5" /\
  memory_bytes "128.5MB" = Returned (of_int 128500000) [].
Proof.
  split; [now rewrite FindAllString_head|].
  split.
  { destruct (ParseFloat_run _ Hrun) as [E | [E _]]; rewrite E; discriminate. }
  split.
  { rewrite memory_bytes_by_run, Hrun. eauto. }
  split; [exact million_exact|].
  split; vm_compute; reflexivity.
Qed.

Lemma memory_bytes_scales_first_run_witness :
  first_run "64.25M" = Some "64.25" /\
  hd_error (FindAllString validID "64.25M") = Some "64.25".
Proof.
  split; [reflexivity|].
  exact (proj1 (@memory_bytes_scales_first_run "64.25M" "64.25" eq_refl)).
Defined.

(** A memory field without any digit makes the closure panic. *)
Lemma first_run_none (s : string) :
  first_run s = None <-> (forall r, ~ In r (FindAllString validID s)).
Proof.
  rewrite <- FindAllString_head. split.
  - destruct (FindAllString validID s); [intros _ r []|discriminate].
  - destruct (FindAllString validID s) as [|x l]; [reflexivity|].
    intros H. exfalso. apply (H x). now left.
Qed.

Lemma memory_bytes_panics (s : string) :
  first_run s = None ->
  memory_bytes s = Panicked "index out of range [0] with length 0".
Proof. intros H. now rewrite memory_bytes_by_run, H. Qed.

(** ** The fetch operations *)

Section FetchFacts.

Variable E : Env.

Lemma fetchAndDecode_split (T : Type) (what path : string)
    (decode : string -> T + string) (c : Collector) :
  fetchAndDecode E what path decode c =
  send_and_decode E what decode (with_Path c path).
Proof. reflexivity. Qed.

Ltac fetch_cases :=
  repeat match goal with
         | |- context [match ?x with inl _ => _ | inr _ => _ end] =>
             destruct x eqn:?
         | |- context [if ?b then _ else _] => destruct b eqn:?
         end.

(** A fetch writes the path into the shared URL, may add one to the
    parse-failure counter, and leaves every other field alone. *)
Lemma fetchAndDecode_frame (T : Type) (what path : string)
    (decode : string -> T + string) (c : Collector) :
  let c' := fst (fetchAndDecode E what path decode c) in
  same_outside_fetch c c' /\ Path (url c') = path /\
  (jsonParseFailures c' = jsonParseFailures c \/
   (jsonParseFailures c' = Inc (jsonParseFailures c) /\
    exists cause,
      snd (fetchAndDecode E what path decode c) = inr (DecodeFailed cause))).
Proof.
  unfold fetchAndDecode, same_outside_fetch. cbn zeta.
  fetch_cases; cbn; repeat split; auto.
  right. split; [reflexivity|]. eauto.
Qed.

Lemma perform_fetchAndDecode (op : operation) (c : Collector) :
  exists (T : Type) (what : string) (decode : string -> T + string),
    fst (perform E op c) =
      fst (fetchAndDecode E what (path_of op c) decode c) /\
    snd (perform E op c) =
      error_of (snd (fetchAndDecode E what (path_of op c) decode c)) /\
    forall body,
      decode_error E op body =
      match decode body with inl _ => None | inr e => Some e end.
Proof.
  destruct op; cbn [perform path_of decode_error].
  - exists nodesResponse, "nodes response", (decodeNodes E).
    unfold fetchAndDecodeNodes.
    destruct (fetchAndDecode _ _ _ _ c); auto.
  - exists metricsResponse, "metrics", (decodeMetrics E).
    unfold fetchAndDecodeMetrics.
    destruct (fetchAndDecode _ _ _ _ c); auto.
  - exists statsResponse, "stats", (decodeStats E).
    unfold fetchAndDecodeStats.
    destruct (fetchAndDecode _ _ _ _ c); auto.
  - exists managementResponse, "management info", (decodeManagement E).
    unfold fetchAndDecodeManagment.
    destruct (fetchAndDecode _ _ _ _ c); auto.
Qed.

Lemma perform_frame (op : operation) (c : Collector) :
  let c' := fst (perform E op c) in
  same_outside_fetch c c' /\ Path (url c') = path_of op c /\
  (jsonParseFailures c' = jsonParseFailures c \/
   (jsonParseFailures c' = Inc (jsonParseFailures c) /\
    exists cause, snd (perform E op c) = Some (DecodeFailed cause))).
Proof.
  destruct (perform_fetchAndDecode op c) as (T & what & decode & Hf & Hs & _).
  cbn zeta. rewrite Hf, Hs.
  destruct (@fetchAndDecode_frame T what (path_of op c) decode c)
    as (Hsame & Hpath & Hcount).
  split; [exact Hsame|]. split; [exact Hpath|].
  destruct Hcount as [H | [H (cause & Hc)]]; [now left|].
  right. split; [exact H|]. exists cause. now rewrite Hc.
Qed.

(** The result of a fetch, by cases on the response it received. *)
Lemma fetchAndDecode_response (T : Type) (what path : string)
    (decode : string -> T + string) (c : Collector) (res : Response) :
  (exists req,
     NewRequest E "GET" (URL_String E (url (with_Path c path))) = inl req /\
     Do E (SetBasicAuth req (username c) (password c)) = inl res) ->
  fetchAndDecode E what path decode c =
  if StatusCode res =? StatusOK then
    match decode (Body res) with
    | inr err =>
        (inc_jsonParseFailures (with_Path c path), inr (DecodeFailed err))
    | inl chr => (with_Path c path, inl chr)
    end
  else (with_Path c path, inr (HTTPStatus (StatusCode res))).
Proof.
  intros (req & Hreq & Hdo). unfold fetchAndDecode. cbn zeta.
  rewrite Hreq. cbn [username password with_Path]. rewrite Hdo.
  destruct (StatusCode res =? StatusOK); reflexivity.
Qed.

Lemma response_to_exchange (op : operation) (c : Collector) (res : Response) :
  response_to E op c = Some res ->
  exists req,
    NewRequest E "GET" (URL_String E (url (with_Path c (path_of op c))))
      = inl req /\
    Do E (SetBasicAuth req (username c) (password c)) = inl res.
Proof.
  unfold response_to. cbn zeta.
  destruct (NewRequest E "GET" _) as [req|]; [|discriminate].
  cbn [username password with_Path].
  destruct (Do E _) as [r|] eqn:Hdo; [|discriminate].
  intros H. inversion H. subst r. exists req. split; [reflexivity | exact Hdo].
Qed.

End FetchFacts.

(** An operation on the response [res] it receives. *)
Lemma perform_on_response (E : Env) (op : operation)
    (c : Collector) (res : Response)
    (Hres : response_to E op c = Some res) :
  (StatusCode res <> 200 ->
   snd (perform E op c) = Some (HTTPStatus (StatusCode res)) /\
   jsonParseFailures (fst (perform E op c)) = jsonParseFailures c) /\
  (StatusCode res = 200 ->
   forall cause, decode_error E op (Body res) = Some cause ->
   snd (perform E op c) = Some (DecodeFailed cause) /\
   counter_value (jsonParseFailures (fst (perform E op c))) =
     (counter_value (jsonParseFailures c) + 1)%N) /\
  (jsonParseFailures (fst (perform E op c)) = jsonParseFailures c \/
   (counter_value (jsonParseFailures (fst (perform E op c))) =
      (counter_value (jsonParseFailures c) + 1)%N /\
    StatusCode res = 200 /\
    exists cause,
      decode_error E op (Body res) = Some cause /\
      snd (perform E op c) = Some (DecodeFailed cause))).
Proof.
  destruct (perform_fetchAndDecode E op c)
    as (T & what & decode & Hf & Hs & Hd).
  rewrite Hf, Hs.
  rewrite (@fetchAndDecode_response E T what (path_of op c) decode c res
             (@response_to_exchange E op c res Hres)).
  unfold StatusOK.
  destruct (StatusCode res =? 200) eqn:Hst.
  - apply Z.eqb_eq in Hst. split; [intros; contradiction|].
    split.
    + intros _ cause Hc. rewrite Hd in Hc.
      destruct (decode (Body res)) as [v|err]; [discriminate|].
      inversion Hc. subst err. cbn. split; [reflexivity|].
      symmetry. apply N.add_1_r.
    + rewrite Hd. destruct (decode (Body res)) as [v|err]; cbn.
      * now left.
      * right. split; [symmetry; apply N.add_1_r|].
        split; [exact Hst|]. eauto.
  - apply Z.eqb_neq in Hst. cbn. split; [auto|].
    split; [intros; contradiction|]. now left.
Qed.

(** An operation that receives no response fails with the request error
    and leaves the counter as it was. *)
Lemma perform_without_response (E : Env) (op : operation) (c : Collector) :
  response_to E op c = None ->
  (exists what u cause,
     snd (perform E op c) = Some (RequestFailed what u cause)) /\
  jsonParseFailures (fst (perform E op c)) = jsonParseFailures c.
Proof.
  destruct (perform_fetchAndDecode E op c)
    as (T & what & decode & Hf & Hs & _).
  rewrite Hf, Hs. unfold response_to, fetchAndDecode. cbn zeta.
  destruct (NewRequest E "GET" _) as [req|err]; cbn.
  - destruct (Do E _) as [r|err]; [discriminate|]. intros _. cbn. eauto.
  - intros _. eauto.
Qed.

(** C5.  Each of the four fetch operations: on a response whose status is
    not 200 it fails with the HTTP status error and leaves the
    parse-failure counter as it was; on a response with status 200 whose
    body does not decode it fails with the decoder's error and adds exactly
    one to the counter.  In every case the counter is either unchanged or
    was raised by one on such a decode failure. *)
Theorem fetch_errors_and_parse_failures (E : Env) (op : operation)
    (c : Collector) :
  (forall res, response_to E op c = Some res ->
     (StatusCode res <> 200 ->
      snd (perform E op c) = Some (HTTPStatus (StatusCode res)) /\
      jsonParseFailures (fst (perform E op c)) = jsonParseFailures c) /\
     (StatusCode res = 200 ->
      forall cause, decode_error E op (Body res) = Some cause ->
      snd (perform E op c) = Some (DecodeFailed cause) /\
      counter_value (jsonParseFailures (fst (perform E op c))) =
        (counter_value (jsonParseFailures c) + 1)%N)) /\
  (jsonParseFailures (fst (perform E op c)) = jsonParseFailures c \/
   exists res cause,
     response_to E op c = Some res /\ StatusCode res = 200 /\
     decode_error E op (Body res) = Some cause /\
     snd (perform E op c) = Some (DecodeFailed cause) /\
     counter_value (jsonParseFailures (fst (perform E op c))) =
       (counter_value (jsonParseFailures c) + 1)%N).
Proof.
  split.
  - intros res Hres.
    destruct (perform_on_response E op c Hres) as (H1 & H2 & _). auto.
  - destruct (response_to E op c) as [res|] eqn:Hres.
    + destruct (perform_on_response E op c Hres)
        as (_ & _ & [H | (Hn & Hst & cause & Hd & Hs)]); [now left|].
      right. exists res, cause. auto.
    + left. apply (perform_without_response E op c Hres).
Qed.

Lemma fetch_errors_and_parse_failures_witness :
  let E := Fixture.broker true Fixture.always_ok None None None None in
  response_to E OpStats Fixture.collector =
    Some {| StatusCode := 200;
            Body := "http://127.0.0.1:8080/api/v2/monitoring/stats/emq@127.0.0.1" |} /\
  snd (perform E OpStats Fixture.collector)
    = Some (DecodeFailed "unexpected end of JSON input") /\
  counter_value
    (jsonParseFailures (fst (perform E OpStats Fixture.collector))) = 1%N.
Proof.
  intros E. split; [reflexivity|].
  refine (proj2 (proj1
    (@fetch_errors_and_parse_failures E OpStats Fixture.collector)
       {| StatusCode := 200;
          Body := "http://127.0.0.1:8080/api/v2/monitoring/stats/emq@127.0.0.1" |}
       eq_refl) eq_refl _ eq_refl).
Defined.

(** ** The collection cycle *)

Section CollectFacts.

Variable E : Env.

Lemma same_outside_fetch_refl (c : Collector) : same_outside_fetch c c.
Proof. unfold same_outside_fetch. tauto. Qed.

Lemma same_outside_fetch_trans (a b c : Collector) :
  same_outside_fetch a b -> same_outside_fetch b c -> same_outside_fetch a c.
Proof.
  unfold same_outside_fetch. intros H1 H2.
  decompose [and] H1. decompose [and] H2. repeat split; congruence.
Qed.

(** One fetch seen from the collector: the fields it keeps, and a
    parse-failure counter that does not go down. *)
Lemma fetch_step (T : Type) (what path : string)
    (decode : string -> T + string) (c c' : Collector) (r : T + error) :
  fetchAndDecode E what path decode c = (c', r) ->
  same_outside_fetch c c' /\
  (counter_value (jsonParseFailures c)
   <= counter_value (jsonParseFailures c'))%N.
Proof.
  intros H.
  destruct (@fetchAndDecode_frame E T what path decode c) as (Hs & _ & Hc).
  rewrite H in Hs, Hc. cbn [fst snd] in Hs, Hc. split; [exact Hs|].
  destruct Hc as [-> | [-> _]]; cbn; lia.
Qed.

Lemma fetch_phase_frame (c : Collector) :
  same_outside_fetch c (fst (fetch_phase E c)) /\
  (counter_value (jsonParseFailures c)
   <= counter_value (jsonParseFailures (fst (fetch_phase E c))))%N.
Proof.
  unfold fetch_phase, fetchAndDecodeNodes, fetchAndDecodeMetrics,
    fetchAndDecodeStats, fetchAndDecodeManagment.
  destruct (fetchAndDecode E _ _ (decodeNodes E) c) as [c1 [n|e]] eqn:H1;
    apply fetch_step in H1; destruct H1 as [S1 L1]; [|now split].
  destruct (fetchAndDecode E _ _ (decodeMetrics E) c1) as [c2 [m|e]] eqn:H2;
    apply fetch_step in H2; destruct H2 as [S2 L2];
    [|split; [eapply same_outside_fetch_trans; eassumption | cbn; lia]].
  destruct (fetchAndDecode E _ _ (decodeStats E) c2) as [c3 [s|e]] eqn:H3;
    apply fetch_step in H3; destruct H3 as [S3 L3];
    [|split; [repeat (eapply same_outside_fetch_trans; [eassumption|]);
              apply same_outside_fetch_refl | cbn; lia]].
  destruct (fetchAndDecode E _ _ (decodeManagement E) c3) as [c4 [g|e]] eqn:H4;
    apply fetch_step in H4; destruct H4 as [S4 L4];
    (split; [repeat (eapply same_outside_fetch_trans; [eassumption|]);
             apply same_outside_fetch_refl | cbn; lia]).
Qed.

(** [Collect_body] when a fetch fails. *)
Lemma Collect_body_failure (c c' : Collector) (e : error) :
  fetch_phase E c = (c', inr e) ->
  Collect_body E c = fetch_failed c' e.
Proof.
  unfold fetch_phase, Collect_body.
  destruct (fetchAndDecodeNodes E c) as [c1 [n|e1]];
    [|intros H; inversion H; reflexivity].
  destruct (fetchAndDecodeMetrics E c1) as [c2 [m|e2]];
    [|intros H; inversion H; reflexivity].
  destruct (fetchAndDecodeStats E c2) as [c3 [s|e3]];
    [|intros H; inversion H; reflexivity].
  destruct (fetchAndDecodeManagment E c3) as [c4 [g|e4]];
    [discriminate | intros H; inversion H; reflexivity].
Qed.

(** [Collect_body] when the four fetches succeed. *)
Lemma Collect_body_success (c c' : Collector) (n : nodesResponse)
    (m : metricsResponse) (s : statsResponse) (g : managementResponse) :
  fetch_phase E c = (c', inl (n, m, s, g)) ->
  Collect_body E c =
  let r := send_metrics (c_metrics c') (snapshot n m s g)
             (select_management (node c') (management_Result g)) in
  {| after := with_up c' (if nodes_Code n =? 0 then of_int 1 else of_int 0);
     sent := fst (fst r); logs := snd (fst r); panic := snd r |}.
Proof.
  unfold fetch_phase, Collect_body.
  destruct (fetchAndDecodeNodes E c) as [c1 [n1|e1]]; [|discriminate].
  destruct (fetchAndDecodeMetrics E c1) as [c2 [m1|e2]]; [|discriminate].
  destruct (fetchAndDecodeStats E c2) as [c3 [s1|e3]]; [|discriminate].
  destruct (fetchAndDecodeManagment E c3) as [c4 [g1|e4]]; [|discriminate].
  intros H. inversion H. subst. cbn [nodes]. unfold snapshot.
  destruct (nodes_Code n =? 0); cbn [c_metrics with_up];
    destruct (send_metrics _ _ _) as [[samples lines] p]; reflexivity.
Qed.

(** The state [Collect] leaves is the state after the fetch phase with the
    health gauge set. *)
Lemma Collect_after (c : Collector) :
  exists v,
    after (Collect E c) = with_up (fst (fetch_phase E (inc_totalScrapes c))) v.
Proof.
  unfold Collect. cbn [after].
  destruct (fetch_phase E (inc_totalScrapes c)) as [c' [[[[n m] s] g]|e]] eqn:H.
  - rewrite (Collect_body_success _ H). cbn. eauto.
  - rewrite (Collect_body_failure _ H). cbn. eauto.
Qed.

Lemma Collect_sent (c : Collector) :
  sent (Collect E c) =
  (sent (Collect_body E (inc_totalScrapes c))
   ++ meta_series (after (Collect E c)))%list.
Proof. reflexivity. Qed.

(** Every sample of the loop carries the version of [managementData]. *)
Lemma send_metrics_version (ms : list metric) (values : combinedResponse)
    (md : ManagementResponseResult) :
  Forall (fun x => is_sample x = true /\
                   version_label x = Some (Version md))
         (fst (fst (send_metrics ms values md))).
Proof.
  induction ms as [|m ms IH]; cbn [send_metrics]; [constructor|].
  destruct (Value m values) as [v lines|reason]; [|constructor].
  unfold MustNewConstMetric.
  destruct (Nat.eqb _ _); [|constructor].
  destruct (send_metrics ms values md) as [[samples lines'] p].
  cbn [fst] in *. constructor; [split; reflexivity | exact IH].
Qed.

(** The loop over metrics whose value functions all return and whose
    descriptors have three labels sends one sample each, in order. *)
Lemma send_metrics_complete (ms : list metric) (values : combinedResponse)
    (md : ManagementResponseResult) :
  Forall (fun m => (exists v lines, Value m values = Returned v lines) /\
                   List.length (variableLabels (Desc m)) = 3%nat) ms ->
  fst (fst (send_metrics ms values md)) = map (sample values md) ms /\
  snd (send_metrics ms values md) = None.
Proof.
  induction 1 as [|m ms [(v & lines & Hv) Hl] _ IH];
    cbn [send_metrics map]; [now split|].
  unfold sample at 1, value_of. rewrite Hv.
  unfold MustNewConstMetric. rewrite Hl. cbn [List.length Nat.eqb].
  destruct (send_metrics ms values md) as [[samples lines'] p].
  cbn [fst snd] in *. destruct IH as [-> ->]. now split.
Qed.

End CollectFacts.

Lemma last_cons_default (A : Type) (l : list A) (x d d' : A) :
  last (x :: l) d = last (x :: l) d'.
Proof.
  revert x. induction l as [|y l IH]; intros x; [reflexivity|].
  change (last (y :: l) d = last (y :: l) d'). apply IH.
Qed.

Lemma last_cons_In (A : Type) (l : list A) (x d : A) :
  In (last (x :: l) d) (x :: l).
Proof.
  revert x. induction l as [|y l IH]; intros x; [now left|].
  right. change (In (last (y :: l) d) (y :: l)). apply IH.
Qed.

(** The version comes from the last record of the given name: each
    assignment of the loop overwrites the one before. *)
Lemma select_management_last (nodeName : string)
    (records : list ManagementResponseResult) :
  select_management nodeName records =
  last (filter (named nodeName) records) zero_ManagementResponseResult.
Proof.
  unfold select_management.
  generalize zero_ManagementResponseResult as acc.
  induction records as [|v records IH]; intros acc; [reflexivity|].
  cbn [fold_left filter].
  change (named nodeName v) with (String.eqb (Name v) nodeName).
  destruct (String.eqb (Name v) nodeName).
  - rewrite IH.
    destruct (filter (named nodeName) records) as [|w l]; [reflexivity|].
    change (last (v :: w :: l) acc) with (last (w :: l) acc).
    apply last_cons_default.
  - apply IH.
Qed.

(** ** The registry *)

Lemma registry_length : List.length registry = 49%nat.
Proof. reflexivity. Qed.

Lemma registry_gauges_with_default_labels :
  Forall (fun m => Type' m = GaugeValue /\
                   variableLabels (Desc m) = ["node"; "otp_release"; "version"])
         registry.
Proof. unfold registry. repeat (constructor; [split; reflexivity|]). constructor. Qed.

(** Every value function of the registry returns on a snapshot whose two
    memory fields contain a digit. *)
Lemma registry_values_return (values : combinedResponse) :
  first_run (MemoryTotal (nodes_Result (nodes values))) <> None ->
  first_run (MemoryUsed (nodes_Result (nodes values))) <> None ->
  Forall (fun m => (exists v lines, Value m values = Returned v lines) /\
                   List.length (variableLabels (Desc m)) = 3%nat) registry.
Proof.
  intros Ht Hu.
  assert (M : forall s, first_run s <> None ->
                        exists v lines, memory_bytes s = Returned v lines).
  { intros s Hs. rewrite memory_bytes_by_run.
    destruct (first_run s); [eauto | contradiction]. }
  unfold registry.
  repeat (apply Forall_cons;
          [split; [cbn [Value]; first [apply (M _ Ht) | apply (M _ Hu)
                                       | unfold ret_int; eauto]
                  | reflexivity]|]).
  apply Forall_nil.
Qed.

(** C10.  The registry has exactly 49 metric definitions, each of gauge
    kind and each with the label names [node, otp_release, version]; it is
    the registry of every collector [NewEMQCollector] builds, and neither a
    fetch operation nor [Collect] changes it. *)
Theorem registry_fixed_49_gauges :
  List.length registry = 49%nat /\
  Forall (fun m => Type' m = GaugeValue /\
                   variableLabels (Desc m) = defaultLabels) registry /\
  defaultLabels = ["node"; "otp_release"; "version"] /\
  (forall u nodeName user pass,
     c_metrics (NewEMQCollector u nodeName user pass) = registry) /\
  (forall E op c, c_metrics (fst (perform E op c)) = c_metrics c) /\
  (forall E c, c_metrics (after (Collect E c)) = c_metrics c).
Proof.
  split; [exact registry_length|].
  split; [exact registry_gauges_with_default_labels|].
  split; [reflexivity|]. split; [reflexivity|]. split.
  - intros E op c. destruct (perform_frame E op c) as (Hs & _).
    unfold same_outside_fetch in Hs. tauto.
  - intros E c. destruct (Collect_after E c) as (v & ->). cbn [c_metrics with_up].
    destruct (fetch_phase_frame E (inc_totalScrapes c)) as (Hs & _).
    unfold same_outside_fetch in Hs. decompose [and] Hs.
    match goal with H : c_metrics _ = _ |- _ => rewrite H end. reflexivity.
Qed.

(** C8.  The registry holds the subscribers metric and the subscriptions
    metric as two definitions with different names at different positions,
    and on every snapshot both value functions return the subscribers
    count. *)
Theorem subscribers_and_subscriptions_agree :
  exists m1 m2 i j,
    lookup_metric "emq_stats_subscribers" registry = Some (i, m1) /\
    lookup_metric "emq_stats_subscriptions" registry = Some (j, m2) /\
    i <> j /\ fqName (Desc m1) <> fqName (Desc m2) /\
    forall values : combinedResponse,
      Value m1 values = Value m2 values /\
      Value m1 values =
        Returned (of_int (SubscribersCount (stats_Result (stats values)))) [].
Proof.
  pose (d := {| Type' := GaugeValue; Desc := NewDesc "" "" [] [];
                Value := fun _ => ret_int 0 |}).
  exists (nth 46 registry d), (nth 47 registry d), 46%nat, 47%nat.
  split; [reflexivity|]. split; [reflexivity|].
  split; [discriminate|]. split; [discriminate|].
  intros values. split; reflexivity.
Qed.

(** ** Total scrapes *)

(** C9.  [Collect] adds exactly one to the total-scrapes counter, whether
    the fetches succeed, one of them fails, or a value function panics; the
    fetch operations leave the counter as it is, so nothing lowers it. *)
Theorem total_scrapes_incremented_once (E : Env) (c : Collector) :
  counter_value (totalScrapes (after (Collect E c))) =
    (counter_value (totalScrapes c) + 1)%N /\
  (forall op, totalScrapes (fst (perform E op c)) = totalScrapes c) /\
  (counter_value (totalScrapes c)
   <= counter_value (totalScrapes (after (Collect E c))))%N.
Proof.
  assert (H : counter_value (totalScrapes (after (Collect E c))) =
              (counter_value (totalScrapes c) + 1)%N).
  { destruct (Collect_after E c) as (v & ->). cbn [totalScrapes with_up].
    destruct (fetch_phase_frame E (inc_totalScrapes c)) as (Hs & _).
    unfold same_outside_fetch in Hs. decompose [and] Hs.
    match goal with H : totalScrapes _ = _ |- _ => rewrite H end.
    cbn. symmetry. apply N.add_1_r. }
  split; [exact H|]. split.
  - intros op. destruct (perform_frame E op c) as (Hs & _).
    unfold same_outside_fetch in Hs. tauto.
  - rewrite H. lia.
Qed.

(** ** Health *)

(** C6.  When the four fetches succeed, [Collect] leaves the health gauge at
    1 exactly when the code inside the decoded node-status payload is 0, and
    at 0 otherwise; the gauge it sends has that value.  Nothing else of the
    responses enters: the environment is arbitrary. *)
Theorem health_follows_embedded_code (E : Env) (c c' : Collector)
    (n : nodesResponse) (m : metricsResponse) (s : statsResponse)
    (g : managementResponse)
    (Hphase : fetch_phase E (inc_totalScrapes c) = (c', inl (n, m, s, g))) :
  gauge_value (up (after (Collect E c))) =
    (if nodes_Code n =? 0 then of_int 1 else of_int 0) /\
  (gauge_value (up (after (Collect E c))) = of_int 1 <-> nodes_Code n = 0) /\
  (gauge_value (up (after (Collect E c))) = of_int 0 <-> nodes_Code n <> 0) /\
  In (GaugeMetric (up (after (Collect E c)))) (sent (Collect E c)).
Proof.
  assert (H : gauge_value (up (after (Collect E c))) =
              (if nodes_Code n =? 0 then of_int 1 else of_int 0)).
  { unfold Collect. cbn [after]. rewrite (@Collect_body_success E _ _ _ _ _ _ Hphase).
    reflexivity. }
  split; [exact H|]. rewrite H.
  destruct (nodes_Code n =? 0) eqn:Hc.
  - apply Z.eqb_eq in Hc. repeat split; auto; try discriminate.
    + intros Hn. contradiction.
    + rewrite Collect_sent. apply in_or_app. right. now left.
  - apply Z.eqb_neq in Hc. repeat split; auto; try discriminate.
    + intros Hn. contradiction.
    + rewrite Collect_sent. apply in_or_app. right. now left.
Qed.

Lemma health_follows_embedded_code_witness :
  let E := Fixture.broker true Fixture.always_ok
             (Some (Fixture.nodes_payload "128.5M" 1))
             (Some Fixture.metrics_payload) (Some Fixture.stats_payload)
             (Some (Fixture.management_payload [])) in
  error_of (snd (fetch_phase E (inc_totalScrapes Fixture.collector))) = None /\
  gauge_value (up (after (Collect E Fixture.collector))) = of_int 0.
Proof.
  intros E. split; [reflexivity|].
  exact (proj1 (@health_follows_embedded_code E Fixture.collector _ _ _ _ _
                  eq_refl)).
Defined.

(** ** What a cycle sends *)

(** A cycle in which a fetch fails sends the three collector-owned series
    and no sample, with the health gauge at 0. *)
Lemma Collect_fetch_failure (E : Env) (c c' : Collector) (e : error) :
  fetch_phase E (inc_totalScrapes c) = (c', inr e) ->
  sent (Collect E c) = meta_series (with_up c' (of_int 0)) /\
  after (Collect E c) = with_up c' (of_int 0) /\
  logs (Collect E c) = [LogError e] /\
  panic (Collect E c) = None.
Proof.
  intros H. unfold Collect.
  rewrite (@Collect_body_failure E _ _ _ H). cbn. auto.
Qed.

(** A cycle in which the four fetches succeed and both memory fields
    contain a digit sends one sample per metric of the registry, in registry
    order, then the three collector-owned series. *)
Lemma Collect_success_all_samples (E : Env) (c c' : Collector)
    (n : nodesResponse) (m : metricsResponse) (s : statsResponse)
    (g : managementResponse) :
  fetch_phase E (inc_totalScrapes c) = (c', inl (n, m, s, g)) ->
  c_metrics c = registry ->
  first_run (MemoryTotal (nodes_Result n)) <> None ->
  first_run (MemoryUsed (nodes_Result n)) <> None ->
  sent (Collect E c) =
    (map (sample (snapshot n m s g)
            (select_management (node c) (management_Result g))) registry
     ++ meta_series (after (Collect E c)))%list /\
  panic (Collect E c) = None.
Proof.
  intros H Hreg Ht Hu.
  destruct (fetch_phase_frame E (inc_totalScrapes c)) as (Hs & _).
  rewrite H in Hs. cbn [fst] in Hs. unfold same_outside_fetch in Hs.
  destruct Hs as (Hnode & _ & _ & _ & _ & Hm & _).
  cbn in Hnode, Hm. rewrite Hreg in Hm.
  destruct (@send_metrics_complete registry (snapshot n m s g)
              (select_management (node c) (management_Result g)))
    as [Hsent Hpanic].
  { apply registry_values_return; assumption. }
  split.
  - rewrite Collect_sent. f_equal.
    rewrite (@Collect_body_success E _ _ _ _ _ _ H). cbn [sent].
    rewrite Hm, Hnode. exact Hsent.
  - unfold Collect. cbn [panic].
    rewrite (@Collect_body_success E _ _ _ _ _ _ H). cbn [panic].
    rewrite Hm, Hnode. exact Hpanic.
Qed.

(** C4, at a node status whose memory total has no digit.  The four fetches
    succeed, the registry has 49 metrics, and the cycle sends four samples
    and the three collector-owned series, ending in a panic. *)
Theorem samples_cut_short_by_memory_panic :
  let E := Fixture.healthy "unknown"
             [Fixture.member Fixture.nodeName "2.3.11"] in
  let r := Collect E Fixture.collector in
  error_of (snd (fetch_phase E (inc_totalScrapes Fixture.collector))) = None /\
  List.length (c_metrics Fixture.collector) = 49%nat /\
  List.length (filter is_sample (sent r)) = 4%nat /\
  List.length (sent r) = 7%nat /\
  panic r = Some "index out of range [0] with length 0".
Proof. vm_compute. repeat split. Qed.

(** C1, at the memory total ["unknown"].  [FindAllString] finds nothing,
    indexing its result panics instead of returning 0, and the cycle stops
    at [memory_total]: only the four samples before it are sent. *)
Theorem memory_without_digits_panics :
  FindAllString validID "unknown" = [] /\
  memory_bytes "unknown" = Panicked "index out of range [0] with length 0" /\
  (forall lines, memory_bytes "unknown" <> Returned zero lines) /\
  let r := Collect (Fixture.healthy "unknown"
                      [Fixture.member Fixture.nodeName "2.3.11"])
             Fixture.collector in
  panic r = Some "index out of range [0] with length 0" /\
  map sample_name (filter is_sample (sent r)) =
    [ Some "emq_cluster_size"; Some "emq_node_process_used";
      Some "emq_node_process_available"; Some "emq_node_max_fds" ].
Proof.
  split; [reflexivity|]. split; [reflexivity|].
  split; [intros lines; discriminate|].
  vm_compute. split; reflexivity.
Qed.

(** ** The version label *)

(** C2 as stated does not hold: with two records of the node's name the
    record selected is not the first one. *)
Lemma first_match_refuted :
  ~ (forall (nodeName : string) (records : list ManagementResponseResult),
       (2 <= List.length (filter (named nodeName) records))%nat ->
       Some (select_management nodeName records)
       = find (named nodeName) records).
Proof.
  intros H.
  specialize (H "emq@127.0.0.1"
                [ Fixture.member "emq@127.0.0.1" "2.3.10";
                  Fixture.member "emq@127.0.0.1" "2.3.11" ]
                (le_n 2)).
  discriminate H.
Qed.

(** C2, amended.  When the four fetches succeed and the membership list has
    two or more records whose name is the configured node identifier, the
    record [Collect] takes the version from is the last of them in list
    order, and every sample it sends carries that record's version. *)
Theorem version_from_last_match (E : Env) (c c' : Collector)
    (n : nodesResponse) (m : metricsResponse) (s : statsResponse)
    (g : managementResponse)
    (Hphase : fetch_phase E (inc_totalScrapes c) = (c', inl (n, m, s, g)))
    (Hdup : (2 <= List.length
                    (filter (named (node c)) (management_Result g)))%nat) :
  let chosen := last (filter (named (node c)) (management_Result g))
                  zero_ManagementResponseResult in
  select_management (node c) (management_Result g) = chosen /\
  In chosen (management_Result g) /\ Name chosen = node c /\
  Forall (fun x => is_sample x = true ->
                   version_label x = Some (Version chosen))
         (sent (Collect E c)).
Proof.
  intros chosen.
  assert (Hin : In chosen (filter (named (node c)) (management_Result g))).
  { unfold chosen.
    destruct (filter (named (node c)) (management_Result g)) as [|x l];
      [cbn in Hdup; lia|].
    apply last_cons_In. }
  apply filter_In in Hin. destruct Hin as [Hin Hname].
  split; [apply select_management_last|]. split; [exact Hin|].
  split; [now apply String.eqb_eq|].
  rewrite Collect_sent. apply Forall_app. split.
  - rewrite (@Collect_body_success E _ _ _ _ _ _ Hphase). cbn [sent].
    destruct (fetch_phase_frame E (inc_totalScrapes c)) as (Hs & _).
    rewrite Hphase in Hs. cbn [fst] in Hs. unfold same_outside_fetch in Hs.
    destruct Hs as (Hnode & _). cbn in Hnode. rewrite Hnode.
    rewrite select_management_last. fold chosen.
    eapply Forall_impl; [|apply send_metrics_version].
    intros x [_ Hx] _. exact Hx.
  - unfold meta_series. repeat constructor; discriminate.
Qed.

Lemma version_from_last_match_witness :
  let records := [ Fixture.member Fixture.nodeName "2.3.10";
                   Fixture.member Fixture.nodeName "2.3.11" ] in
  (2 <= List.length (filter (named Fixture.nodeName) records))%nat /\
  Version (select_management Fixture.nodeName records) = "2.3.11".
Proof.
  intros records. split; [exact (le_n 2)|].
  pose proof (@version_from_last_match
                (Fixture.healthy "128.5M" records) Fixture.collector
                _ _ _ _ _ eq_refl (le_n 2)) as H.
  destruct H as [H _].
  change (node Fixture.collector) with Fixture.nodeName in H.
  change (management_Result (Fixture.management_payload records))
    with records in H.
  rewrite H. reflexivity.
Defined.

(** ** The shared base address *)

(** C3, at the collector built on the flag's URL.  Every fetch operation
    writes its path into the [url.URL] the collector shares, so the base
    address is changed by each of them; and a fetch for the node status
    whose write is followed by another fetch's write before it prints the
    URL asks the broker for the other path and fails, where the same fetch
    run alone succeeds. *)
Theorem fetch_overwrites_shared_url :
  (forall E op c,
     url (fst (perform E op c)) =
     {| Scheme := Scheme (url c); Host := Host (url c);
        Path := path_of op c |}) /\
  let E := Fixture.broker true Fixture.only_nodes
             (Some (Fixture.nodes_payload "128.5M" 0))
             (Some Fixture.metrics_payload) (Some Fixture.stats_payload)
             (Some (Fixture.management_payload [])) in
  let c := Fixture.collector in
  Path (url c) = "" /\
  Path (url (fst (fetchAndDecodeNodes E c)))
    = "/api/v2/monitoring/nodes/emq@127.0.0.1" /\
  error_of (snd (fetchAndDecodeNodes E c)) = None /\
  error_of
    (snd (send_and_decode E "nodes response" (decodeNodes E)
            (with_Path (with_Path c (path_of OpNodes c))
               (path_of OpMetrics c))))
    = Some (HTTPStatus 404).
Proof.
  split.
  - intros E op c. destruct (perform_frame E op c) as (Hs & Hp & _).
    unfold same_outside_fetch in Hs. decompose [and] Hs.
    destruct (url (fst (perform E op c))) as [sc ho pa]. cbn in *.
    congruence.
  - vm_compute. repeat split.
Qed.

(** * Further properties of the collector *)

(** ** The fetch phase, operation by operation *)

Ltac fetch_split :=
  repeat match goal with
         | |- context [match ?x with inl _ => _ | inr _ => _ end] =>
             destruct x eqn:?
         | |- context [if ?b then _ else _] => destruct b eqn:?
         end.

(** A fetch raises the parse-failure counter exactly when the error it
    returns is the decoder's. *)
Lemma fetchAndDecode_counts_decode_failures (E : Env) (T : Type)
    (what path : string) (decode : string -> T + string) (c : Collector) :
  let r := fetchAndDecode E what path decode c in
  (jsonParseFailures (fst r) = jsonParseFailures c /\
   forall cause, snd r <> inr (DecodeFailed cause)) \/
  (jsonParseFailures (fst r) = Inc (jsonParseFailures c) /\
   exists cause, snd r = inr (DecodeFailed cause)).
Proof.
  unfold fetchAndDecode. cbn zeta.
  fetch_split; cbn; try (left; split; [reflexivity | intros; discriminate]).
  right. split; [reflexivity | eauto].
Qed.

Lemma perform_counts_decode_failures (E : Env) (op : operation)
    (c : Collector) :
  (jsonParseFailures (fst (perform E op c)) = jsonParseFailures c /\
   forall cause, snd (perform E op c) <> Some (DecodeFailed cause)) \/
  (jsonParseFailures (fst (perform E op c)) = Inc (jsonParseFailures c) /\
   exists cause, snd (perform E op c) = Some (DecodeFailed cause)).
Proof.
  destruct (perform_fetchAndDecode E op c)
    as (T & what & decode & Hf & Hs & _).
  rewrite Hf, Hs.
  destruct (fetchAndDecode_counts_decode_failures E what (path_of op c)
              decode c) as [[H1 H2] | [H1 (cause & H2)]].
  - left. split; [exact H1|]. intros cause Hc.
    destruct (snd (fetchAndDecode E what (path_of op c) decode c))
      as [v|e] eqn:Hr; [discriminate|].
    cbn in Hc. inversion Hc. subst e. exact (H2 cause eq_refl).
  - right. split; [exact H1|]. exists cause. now rewrite H2.
Qed.

(** The fetch phase of [Collect] is the four operations performed in the
    order status, counters, statistics, membership, stopped at the first
    failure. *)
Lemma fetch_phase_in_order (E : Env) (c : Collector) :
  fst (fetch_phase E c) = fst (perform_until_failure E fetch_order c) /\
  error_of (snd (fetch_phase E c)) =
    snd (perform_until_failure E fetch_order c).
Proof.
  unfold fetch_phase, fetch_order. cbn [perform_until_failure perform].
  destruct (fetchAndDecodeNodes E c) as [c1 [n|e]]; cbn; [|now split].
  destruct (fetchAndDecodeMetrics E c1) as [c2 [m|e]]; cbn; [|now split].
  destruct (fetchAndDecodeStats E c2) as [c3 [s|e]]; cbn; [|now split].
  destruct (fetchAndDecodeManagment E c3) as [c4 [g|e]]; cbn; now split.
Qed.

Lemma perform_until_failure_frame (E : Env) (ops : list operation)
    (c : Collector) :
  same_outside_fetch c (fst (perform_until_failure E ops c)) /\
  ((jsonParseFailures (fst (perform_until_failure E ops c))
    = jsonParseFailures c /\
    forall cause,
      snd (perform_until_failure E ops c) <> Some (DecodeFailed cause)) \/
   (jsonParseFailures (fst (perform_until_failure E ops c))
    = Inc (jsonParseFailures c) /\
    exists cause,
      snd (perform_until_failure E ops c) = Some (DecodeFailed cause))).
Proof.
  revert c. induction ops as [|op ops IH]; intros c; cbn.
  - split; [apply same_outside_fetch_refl|]. left.
    split; [reflexivity | intros; discriminate].
  - destruct (perform_frame E op c) as (Hs & _).
    pose proof (perform_counts_decode_failures E op c) as Hc.
    destruct (perform E op c) as [c' [e|]]; cbn [fst snd] in *.
    + split; [exact Hs | exact Hc].
    + destruct (IH c') as (Hs' & Hc'). split.
      * eapply same_outside_fetch_trans; eassumption.
      * destruct Hc as [[Hc _] | [_ (cause & Hc)]]; [|discriminate].
        rewrite <- Hc. exact Hc'.
Qed.

(** X4.  A cycle in which some operation fails: the error logged is that of
    the first operation to fail in the order status, counters, statistics,
    membership; the operations after it are not performed, the health gauge
    is left at 0, nothing but the three collector-owned series is sent, and
    nothing panics. *)
Theorem first_failure_ends_cycle (E : Env) (c : Collector) (e : error)
    (Hfail : snd (perform_until_failure E fetch_order (inc_totalScrapes c))
             = Some e) :
  logs (Collect E c) = [LogError e] /\
  after (Collect E c) =
    with_up (fst (perform_until_failure E fetch_order (inc_totalScrapes c)))
      (of_int 0) /\
  gauge_value (up (after (Collect E c))) = zero /\
  sent (Collect E c) = meta_series (after (Collect E c)) /\
  panic (Collect E c) = None.
Proof.
  destruct (fetch_phase_in_order E (inc_totalScrapes c)) as [Hst Herr].
  rewrite Hfail in Herr. rewrite <- Hst.
  destruct (fetch_phase E (inc_totalScrapes c)) as [c' [v|e']] eqn:Hp;
    [discriminate|].
  cbn in Herr. inversion Herr. subst e'.
  destruct (Collect_fetch_failure E c Hp) as (H1 & H2 & H3 & H4).
  rewrite H2. cbn [fst]. repeat split; auto.
Qed.

Lemma first_failure_ends_cycle_witness :
  let E := Fixture.broker true Fixture.always_ok
             (Some (Fixture.nodes_payload "128.5M" 0)) None None None in
  snd (perform_until_failure E fetch_order
         (inc_totalScrapes Fixture.collector))
    = Some (DecodeFailed "unexpected end of JSON input") /\
  logs (Collect E Fixture.collector)
    = [LogError (DecodeFailed "unexpected end of JSON input")].
Proof.
  intros E. split; [reflexivity|].
  exact (proj1 (@first_failure_ends_cycle E Fixture.collector _ eq_refl)).
Defined.

(** ** Counters over one and over many cycles *)

Lemma Collect_parse_failures (E : Env) (c : Collector) :
  (jsonParseFailures (after (Collect E c)) = jsonParseFailures c /\
   forall cause, logs (Collect E c) <> [LogError (DecodeFailed cause)]) \/
  (jsonParseFailures (after (Collect E c)) = Inc (jsonParseFailures c) /\
   exists cause, logs (Collect E c) = [LogError (DecodeFailed cause)]).
Proof.
  destruct (fetch_phase_in_order E (inc_totalScrapes c)) as [Hst Herr].
  destruct (perform_until_failure_frame E fetch_order (inc_totalScrapes c))
    as (_ & Hc).
  rewrite <- Hst, <- Herr in Hc. cbn [jsonParseFailures inc_totalScrapes] in Hc.
  destruct (fetch_phase E (inc_totalScrapes c)) as [c' [[[[n m] s] g]|e]] eqn:Hp;
    cbn [fst snd error_of] in Hc.
  - left. destruct Hc as [[Hc _] | [_ (cause & Hc)]]; [|discriminate].
    unfold Collect. cbn [after logs].
    rewrite (@Collect_body_success E _ _ _ _ _ _ Hp). cbn [after logs].
    split; [exact Hc|]. intros cause Hl.
    clear - Hl. revert Hl.
    generalize (c_metrics c'). intros ms.
    induction ms as [|x ms IH]; cbn [send_metrics]; [discriminate|].
    destruct (Value x _) as [v lines|reason]; [|discriminate].
    unfold MustNewConstMetric. destruct (Nat.eqb _ _).
    + destruct (send_metrics ms _ _) as [[samples lines'] p]. cbn [fst snd] in *.
      destruct lines as [|l0 lines]; cbn; [exact IH|]. discriminate.
    + cbn. destruct lines as [|l0 lines]; cbn; discriminate.
  - destruct (Collect_fetch_failure E c Hp) as (_ & Ha & Hl & _).
    rewrite Ha, Hl. cbn [jsonParseFailures with_up].
    destruct Hc as [[Hc Hn] | [Hc (cause & He)]].
    + left. split; [exact Hc|]. intros cause H. inversion H. subst e.
      exact (Hn cause eq_refl).
    + right. split; [exact Hc|]. exists cause. inversion He. reflexivity.
Qed.

(** X5.  One cycle raises the parse-failure counter by at most one: by one
    when the error it logs is a decode failure, and not at all in every
    other case, whether the cycle succeeds, fails otherwise or panics. *)
Theorem parse_failures_at_most_one_per_cycle (E : Env) (c : Collector) :
  counter_value (jsonParseFailures (after (Collect E c))) =
  (counter_value (jsonParseFailures c) +
   match logs (Collect E c) with
   | [LogError (DecodeFailed _)] => 1
   | _ => 0
   end)%N.
Proof.
  destruct (Collect_parse_failures E c) as [[H Hn] | [H (cause & Hl)]];
    rewrite H.
  - destruct (logs (Collect E c)) as [|[[w u k|code|cause]|msg] [|y l]];
      try (now rewrite N.add_0_r).
    exfalso. exact (Hn cause eq_refl).
  - rewrite Hl. cbn. symmetry. apply N.add_1_r.
Qed.

Lemma Collect_total_scrapes (E : Env) (c : Collector) :
  totalScrapes (after (Collect E c)) = Inc (totalScrapes c).
Proof.
  destruct (Collect_after E c) as (v & ->). cbn [totalScrapes with_up].
  destruct (fetch_phase_frame E (inc_totalScrapes c)) as (Hs & _).
  unfold same_outside_fetch in Hs. decompose [and] Hs.
  match goal with H : totalScrapes _ = _ |- _ => rewrite H end. reflexivity.
Qed.

Lemma Collect_same_config (E : Env) (c : Collector) :
  same_config c (after (Collect E c)).
Proof.
  destruct (Collect_after E c) as (v & ->).
  destruct (fetch_phase_frame E (inc_totalScrapes c)) as (Hs & _).
  unfold same_outside_fetch in Hs. unfold same_config. cbn in *. tauto.
Qed.

(** X6.  After any number of cycles, each run on the state the previous one
    left, the total-scrapes counter has risen by the number of cycles, the
    parse-failure counter has not gone down and has risen by at most that
    number, and the configuration and the registry are those the collector
    started with. *)
Theorem counters_after_cycles (Es : list Env) (c : Collector) :
  counter_value (totalScrapes (cycles Es c)) =
    (counter_value (totalScrapes c) + N.of_nat (List.length Es))%N /\
  (counter_value (jsonParseFailures c)
   <= counter_value (jsonParseFailures (cycles Es c))
   <= counter_value (jsonParseFailures c) + N.of_nat (List.length Es))%N /\
  same_config c (cycles Es c).
Proof.
  unfold cycles. revert c.
  induction Es as [|E Es IH]; intros c; cbn [fold_left List.length].
  - rewrite N.add_0_r. unfold same_config. repeat split; lia.
  - destruct (IH (after (Collect E c))) as (Ht & Hp & Hc).
    rewrite Ht, Collect_total_scrapes, Nat2N.inj_succ.
    pose proof (parse_failures_bound := Collect_parse_failures E c).
    pose proof (Collect_same_config E c) as Hc1.
    cbn [counter_value Inc].
    split; [lia|]. split.
    + destruct parse_failures_bound as [[H _] | [H _]]; rewrite H in Hp;
        cbn [counter_value Inc] in Hp; lia.
    + unfold same_config in *. decompose [and] Hc. decompose [and] Hc1.
      repeat split; congruence.
Qed.

(** ** The samples of a successful cycle *)

(** One turn of the sending loop on a metric whose value function returns
    and whose descriptor has three labels. *)
Lemma send_metrics_cons (m : metric) (ms : list metric)
    (values : combinedResponse) (md : ManagementResponseResult)
    (v : float64) (lines : list string) :
  Value m values = Returned v lines ->
  List.length (variableLabels (Desc m)) = 3%nat ->
  fst (fst (send_metrics (m :: ms) values md)) =
  sample values md m :: fst (fst (send_metrics ms values md)).
Proof.
  intros Hv Hl. cbn [send_metrics]. unfold sample, value_of. rewrite Hv.
  unfold MustNewConstMetric. rewrite Hl. cbn [List.length Nat.eqb].
  destruct (send_metrics ms values md) as [[samples lines'] p]. reflexivity.
Qed.

Lemma fetch_phase_success_config (E : Env) (c c' : Collector)
    (v : nodesResponse * metricsResponse * statsResponse * managementResponse) :
  fetch_phase E (inc_totalScrapes c) = (c', inl v) ->
  node c' = node c /\ c_metrics c' = c_metrics c.
Proof.
  intros H.
  destruct (fetch_phase_frame E (inc_totalScrapes c)) as (Hs & _).
  rewrite H in Hs. cbn [fst] in Hs. unfold same_outside_fetch in Hs.
  cbn in Hs. tauto.
Qed.

(** X1.  When the four fetches succeed, the first metric a collector with
    the registry sends is the cluster-size gauge, and its value is the
    number of records of the membership list, whatever happens in the rest
    of the cycle. *)
Theorem cluster_size_is_membership_length (E : Env) (c c' : Collector)
    (n : nodesResponse) (m : metricsResponse) (s : statsResponse)
    (g : managementResponse)
    (Hphase : fetch_phase E (inc_totalScrapes c) = (c', inl (n, m, s, g)))
    (Hreg : c_metrics c = registry) :
  exists labelValues,
    hd_error (sent (Collect E c)) =
    Some (ConstMetric
            (NewDesc "emq_cluster_size"
               "The total number of EMQ nodes in your cluster."
               ["node"; "otp_release"; "version"] [])
            GaugeValue
            (of_int (Z.of_nat (List.length (management_Result g))))
            labelValues).
Proof.
  destruct (fetch_phase_success_config E c Hphase) as [Hnode Hm].
  rewrite Hreg in Hm.
  rewrite Collect_sent, (@Collect_body_success E _ _ _ _ _ _ Hphase).
  cbn [sent]. rewrite Hm. unfold registry.
  erewrite send_metrics_cons; [|reflexivity|reflexivity].
  cbn [app hd_error]. unfold sample, value_of. cbn [Value Desc Type'].
  eexists. reflexivity.
Qed.

Lemma cluster_size_is_membership_length_witness :
  let members := [ Fixture.member "emq1@10.0.0.1" "2.3.11";
                   Fixture.member Fixture.nodeName "2.3.11";
                   Fixture.member "emq3@10.0.0.3" "2.3.11" ] in
  let E := Fixture.healthy "128.5M" members in
  error_of (snd (fetch_phase E (inc_totalScrapes Fixture.collector))) = None /\
  exists d labelValues,
    hd_error (sent (Collect E Fixture.collector)) =
    Some (ConstMetric d GaugeValue (of_int 3) labelValues).
Proof.
  intros members E. split; [reflexivity|].
  destruct (@cluster_size_is_membership_length E Fixture.collector
              _ _ _ _ _ eq_refl eq_refl) as (labelValues & H).
  eexists. exists labelValues. exact H.
Defined.

(** X2.  When the four fetches succeed and both memory fields of the node
    status contain a digit, a collector with the registry sends 52 metrics
    without panicking: one sample per metric of the registry, in registry
    order, each with the value its value function returns and with the
    labels node name and release of the node-status payload (not the
    configured node identifier) and the selected version, followed by the
    health gauge and the two counters. *)
Theorem successful_cycle_sends_registry (E : Env) (c c' : Collector)
    (n : nodesResponse) (m : metricsResponse) (s : statsResponse)
    (g : managementResponse)
    (Hphase : fetch_phase E (inc_totalScrapes c) = (c', inl (n, m, s, g)))
    (Hreg : c_metrics c = registry)
    (Htotal : has_digit (MemoryTotal (nodes_Result n)) = true)
    (Hused : has_digit (MemoryUsed (nodes_Result n)) = true) :
  let values := snapshot n m s g in
  let version :=
    Version (select_management (node c) (management_Result g)) in
  sent (Collect E c) =
    (map (fun d =>
            ConstMetric (Desc d) (Type' d) (value_of d values)
              [ NodeName (nodes_Result n); Release (nodes_Result n);
                version ]) registry
     ++ [ GaugeMetric (up (after (Collect E c)));
          CounterMetric (totalScrapes (after (Collect E c)));
          CounterMetric (jsonParseFailures (after (Collect E c))) ])%list /\
  List.length (sent (Collect E c)) = 52%nat /\
  panic (Collect E c) = None.
Proof.
  intros values version.
  assert (D : forall t, has_digit t = true -> first_run t <> None).
  { induction t as [|a t IH]; cbn; [discriminate|].
    destruct (is_digit a); [discriminate | exact IH]. }
  destruct (@Collect_success_all_samples E c c' n m s g Hphase Hreg
              (D _ Htotal) (D _ Hused)) as [Hs Hp].
  split; [exact Hs|]. split; [|exact Hp].
  rewrite Hs, length_app, length_map. reflexivity.
Qed.

Lemma successful_cycle_sends_registry_witness :
  let E := Fixture.healthy "128.5M" [Fixture.member Fixture.nodeName "2.3.11"] in
  has_digit "128.5M" = true /\
  List.length (sent (Collect E Fixture.collector)) = 52%nat /\
  panic (Collect E Fixture.collector) = None.
Proof.
  intros E. split; [reflexivity|].
  exact (proj2 (@successful_cycle_sends_registry E Fixture.collector
                  _ _ _ _ _ eq_refl eq_refl eq_refl eq_refl)).
Defined.

(** X3.  When the four fetches succeed and no record of the membership list
    has the configured node identifier as its name, every sample the cycle
    sends has the empty string as its version label; the missing record is
    not an error. *)
Theorem no_match_gives_empty_version (E : Env) (c c' : Collector)
    (n : nodesResponse) (m : metricsResponse) (s : statsResponse)
    (g : managementResponse)
    (Hphase : fetch_phase E (inc_totalScrapes c) = (c', inl (n, m, s, g)))
    (Hnone : forall v, In v (management_Result g) -> Name v <> node c) :
  select_management (node c) (management_Result g)
    = zero_ManagementResponseResult /\
  Forall (fun x => is_sample x = true -> version_label x = Some "")
         (sent (Collect E c)) /\
  forall e, ~ In (LogError e) (logs (Collect E c)).
Proof.
  assert (Hsel : select_management (node c) (management_Result g)
                 = zero_ManagementResponseResult).
  { rewrite select_management_last.
    replace (filter (named (node c)) (management_Result g)) with
      (@nil ManagementResponseResult); [reflexivity|].
    symmetry. clear Hphase. induction (management_Result g) as [|v l IH];
      [reflexivity|]. cbn [filter]. unfold named at 1.
    destruct (String.eqb (Name v) (node c)) eqn:Hv.
    - apply String.eqb_eq in Hv. exfalso.
      apply (Hnone v); [now left | exact Hv].
    - apply IH. intros w Hw. apply Hnone. now right. }
  destruct (fetch_phase_success_config E c Hphase) as [Hnode Hm].
  split; [exact Hsel|]. split.
  - rewrite Collect_sent. apply Forall_app. split.
    + rewrite (@Collect_body_success E _ _ _ _ _ _ Hphase). cbn [sent].
      rewrite Hnode, Hsel.
      eapply Forall_impl; [|apply send_metrics_version].
      intros x [_ Hx] _. exact Hx.
    + unfold meta_series. repeat constructor; discriminate.
  - intros e. unfold Collect. cbn [logs].
    rewrite (@Collect_body_success E _ _ _ _ _ _ Hphase). cbn [logs].
    generalize (c_metrics c') as ms. intros ms.
    induction ms as [|x ms IH]; cbn [send_metrics]; [intros []|].
    destruct (Value x _) as [v lines|reason]; [|intros []].
    unfold MustNewConstMetric. destruct (Nat.eqb _ _).
    + destruct (send_metrics ms _ _) as [[samples lines'] p].
      cbn [fst snd] in *. intros H. apply in_app_or in H.
      destruct H as [H|H]; [|exact (IH H)].
      apply in_map_iff in H. destruct H as (l0 & H & _). discriminate.
    + cbn [fst snd]. intros H.
      apply in_map_iff in H. destruct H as (l0 & H & _). discriminate.
Qed.

Lemma no_match_gives_empty_version_witness :
  let members := [Fixture.member "emq2@10.0.0.2" "2.3.11"] in
  let E := Fixture.healthy "128.5M" members in
  (forall v, In v members -> Name v <> Fixture.nodeName) /\
  select_management Fixture.nodeName members = zero_ManagementResponseResult.
Proof.
  intros members E.
  assert (H : forall v, In v members -> Name v <> Fixture.nodeName).
  { intros v [<- | []]. discriminate. }
  split; [exact H|].
  exact (proj1 (@no_match_gives_empty_version E Fixture.collector
                  _ _ _ _ _ eq_refl H)).
Defined.

(** ** Health over all outcomes *)

(** X7.  After any cycle the health gauge is 0 or 1, and it is 1 exactly
    when the four fetches succeeded and the code embedded in the node status
    is 0: any fetch failure and any other code leave it at 0. *)
Theorem health_is_one_only_on_success (E : Env) (c : Collector) :
  (gauge_value (up (after (Collect E c))) = of_int 0 \/
   gauge_value (up (after (Collect E c))) = of_int 1) /\
  (gauge_value (up (after (Collect E c))) = of_int 1 <->
   exists c' n m s g,
     fetch_phase E (inc_totalScrapes c) = (c', inl (n, m, s, g)) /\
     nodes_Code n = 0).
Proof.
  unfold Collect. cbn [after].
  destruct (fetch_phase E (inc_totalScrapes c)) as [c' [[[[n m] s] g]|e]] eqn:Hp.
  - rewrite (@Collect_body_success E _ _ _ _ _ _ Hp). cbn.
    destruct (nodes_Code n =? 0) eqn:Hc.
    + apply Z.eqb_eq in Hc. split; [now right|]. split; [|reflexivity].
      intros _. exists c', n, m, s, g. now split.
    + apply Z.eqb_neq in Hc. split; [now left|]. split; [discriminate|].
      intros (c0 & n0 & m0 & s0 & g0 & H & Hz). inversion H. subst.
      contradiction.
  - rewrite (@Collect_body_failure E _ _ _ Hp). cbn.
    split; [now left|]. split; [discriminate|].
    intros (c0 & n0 & m0 & s0 & g0 & H & _). discriminate.
Qed.

(** ** What a cycle depends on *)

Lemma path_of_same_config (op : operation) (c1 c2 : Collector) :
  same_config c1 c2 -> path_of op c2 = path_of op c1.
Proof.
  intros (Hn & _). destruct op; cbn; now rewrite ?Hn.
Qed.

Lemma endpoint_same_config (op : operation) (c1 c2 : Collector) :
  same_config c1 c2 -> endpoint c2 op = endpoint c1 op.
Proof.
  intros H. unfold endpoint. rewrite (path_of_same_config op H).
  destruct H as (_ & _ & _ & Hs & Hh & _). now rewrite Hs, Hh.
Qed.

Lemma same_config_refl (c : Collector) : same_config c c.
Proof. unfold same_config. tauto. Qed.

Lemma same_config_sym (c1 c2 : Collector) :
  same_config c1 c2 -> same_config c2 c1.
Proof. unfold same_config. intuition congruence. Qed.

Lemma same_config_trans (c1 c2 c3 : Collector) :
  same_config c1 c2 -> same_config c2 c3 -> same_config c1 c3.
Proof. unfold same_config. intuition congruence. Qed.

Lemma same_traffic_same_config (c1 c2 : Collector) (E1 E2 : Env) :
  same_config c1 c2 -> same_traffic c1 E1 E2 -> same_traffic c2 E1 E2.
Proof.
  intros Hc (HU & HN & HD & Hdec). unfold same_traffic.
  split; [intros op; rewrite (endpoint_same_config op Hc); apply HU|].
  split; [intros op; rewrite (endpoint_same_config op Hc); apply HN|].
  split; [|exact Hdec].
  destruct Hc as (_ & Hu & Hp & _). rewrite Hu, Hp. exact HD.
Qed.

(** One operation run in two environments that answer alike, from two
    states of one configuration: the same result, and states that still
    have that configuration, equal if they were. *)
Lemma fetchAndDecode_sim (E1 E2 : Env) (T : Type) (what : string)
    (op : operation) (decode1 decode2 : string -> T + string)
    (c1 c2 : Collector) :
  same_traffic c1 E1 E2 -> same_config c1 c2 ->
  (forall b, decode1 b = decode2 b) ->
  let r1 := fetchAndDecode E1 what (path_of op c1) decode1 c1 in
  let r2 := fetchAndDecode E2 what (path_of op c2) decode2 c2 in
  snd r1 = snd r2 /\ same_config (fst r1) (fst r2) /\
  same_config c1 (fst r1) /\ (c1 = c2 -> fst r1 = fst r2).
Proof.
  intros (HU & HN & HD & _) Hc Hdec.
  rewrite (path_of_same_config op Hc).
  pose proof (endpoint_same_config op Hc) as He.
  destruct Hc as (Hn & Hu & Hp & Hs & Hh & Hm).
  unfold fetchAndDecode. cbn zeta.
  change (url (with_Path c1 (path_of op c1))) with (endpoint c1 op).
  replace (url (with_Path c2 (path_of op c1))) with (endpoint c1 op).
  2:{ unfold endpoint. cbn. now rewrite Hs, Hh. }
  cbn [username password with_Path]. rewrite Hu, Hp.
  rewrite <- (HU op), <- (HN op).
  assert (S1 : forall c, same_config c (with_Path c (path_of op c1))).
  { intros c. unfold same_config. cbn. tauto. }
  assert (S2 : forall c, same_config c (inc_jsonParseFailures c)).
  { intros c. unfold same_config. cbn. tauto. }
  assert (C12 : same_config c1 c2) by (unfold same_config; tauto).
  assert (B : same_config (with_Path c1 (path_of op c1))
                          (with_Path c2 (path_of op c1))).
  { unfold same_config. cbn. tauto. }
  assert (Fin : forall a1 a2 (r : T + error),
            same_config a1 a2 -> same_config c1 a1 -> (c1 = c2 -> a1 = a2) ->
            snd (a1, r) = snd (a2, r) /\ same_config (fst (a1, r)) (fst (a2, r)) /\
            same_config c1 (fst (a1, r)) /\ (c1 = c2 -> fst (a1, r) = fst (a2, r))).
  { intros a1 a2 r H1 H2 H3. cbn [fst snd]. auto. }
  destruct (NewRequest E1 "GET" (URL_String E1 (endpoint c1 op)))
    as [req|err].
  2:{ apply Fin; auto. intros ->. reflexivity. }
  rewrite <- (HD (SetBasicAuth req (username c1) (password c1)) eq_refl).
  destruct (Do E1 _) as [res|err].
  2:{ apply Fin; auto. intros ->. reflexivity. }
  destruct (negb (StatusCode res =? StatusOK)).
  { apply Fin; auto. intros ->. reflexivity. }
  rewrite <- Hdec. destruct (decode1 (Body res)) as [v|err].
  - apply Fin; auto. intros ->. reflexivity.
  - apply Fin.
    + unfold same_config in *. cbn in *. tauto.
    + unfold same_config in *. cbn in *. tauto.
    + intros ->. reflexivity.
Qed.

Lemma fetch_phase_sim (E1 E2 : Env) (c1 c2 : Collector) :
  same_traffic c1 E1 E2 -> same_config c1 c2 ->
  snd (fetch_phase E1 c1) = snd (fetch_phase E2 c2) /\
  same_config (fst (fetch_phase E1 c1)) (fst (fetch_phase E2 c2)) /\
  same_config c1 (fst (fetch_phase E1 c1)) /\
  (c1 = c2 -> fst (fetch_phase E1 c1) = fst (fetch_phase E2 c2)).
Proof.
  intros Ht Hc.
  pose proof Ht as (_ & _ & _ & Dn & Dm & Ds & Dg).
  unfold fetch_phase, fetchAndDecodeNodes, fetchAndDecodeMetrics,
    fetchAndDecodeStats, fetchAndDecodeManagment.
  change ("/api/v2/monitoring/nodes/" ++ node c1)%string
    with (path_of OpNodes c1).
  change ("/api/v2/monitoring/nodes/" ++ node c2)%string
    with (path_of OpNodes c2).
  destruct (@fetchAndDecode_sim E1 E2 _ "nodes response" OpNodes
              (decodeNodes E1) (decodeNodes E2) c1 c2 Ht Hc Dn)
    as (R & C & K & Q).
  destruct (fetchAndDecode E1 _ (path_of OpNodes c1) _ c1) as [a1 r1].
  destruct (fetchAndDecode E2 _ (path_of OpNodes c2) _ c2) as [a2 r2].
  cbn [fst snd] in *. subst r2.
  destruct r1 as [n|e]; cbn [fst snd];
    [|split; [reflexivity|]; split; [assumption|]; split; [assumption|];
      intros H; auto].
  pose proof (same_traffic_same_config K Ht) as Ht1.
  change ("/api/v2/monitoring/metrics/" ++ node a1)%string
    with (path_of OpMetrics a1).
  change ("/api/v2/monitoring/metrics/" ++ node a2)%string
    with (path_of OpMetrics a2).
  destruct (@fetchAndDecode_sim E1 E2 _ "metrics" OpMetrics
              (decodeMetrics E1) (decodeMetrics E2) a1 a2 Ht1 C Dm)
    as (R2 & C2 & K2 & Q2).
  destruct (fetchAndDecode E1 _ (path_of OpMetrics a1) _ a1) as [b1 r1].
  destruct (fetchAndDecode E2 _ (path_of OpMetrics a2) _ a2) as [b2 r2].
  cbn [fst snd] in *. subst r2.
  pose proof (same_config_trans K K2) as K02.
  destruct r1 as [m|e]; cbn [fst snd];
    [|split; [reflexivity|]; split; [assumption|]; split; [assumption|];
      intros H; auto].
  pose proof (same_traffic_same_config K2 Ht1) as Ht2.
  change ("/api/v2/monitoring/stats/" ++ node b1)%string
    with (path_of OpStats b1).
  change ("/api/v2/monitoring/stats/" ++ node b2)%string
    with (path_of OpStats b2).
  destruct (@fetchAndDecode_sim E1 E2 _ "stats" OpStats
              (decodeStats E1) (decodeStats E2) b1 b2 Ht2 C2 Ds)
    as (R3 & C3 & K3 & Q3).
  destruct (fetchAndDecode E1 _ (path_of OpStats b1) _ b1) as [d1 r1].
  destruct (fetchAndDecode E2 _ (path_of OpStats b2) _ b2) as [d2 r2].
  cbn [fst snd] in *. subst r2.
  pose proof (same_config_trans K02 K3) as K03.
  destruct r1 as [s|e]; cbn [fst snd];
    [|split; [reflexivity|]; split; [assumption|]; split; [assumption|];
      intros H; auto].
  pose proof (same_traffic_same_config K3 Ht2) as Ht3.
  pose proof (@fetchAndDecode_sim E1 E2 _ "management info" OpManagement
                (decodeManagement E1) (decodeManagement E2) d1 d2 Ht3 C3 Dg)
    as S4.
  cbn zeta in S4. cbn [path_of] in S4. destruct S4 as (R4 & C4 & K4 & Q4).
  destruct (fetchAndDecode E1 _ _ (decodeManagement E1) d1) as [f1 r1].
  destruct (fetchAndDecode E2 _ _ (decodeManagement E2) d2) as [f2 r2].
  cbn [fst snd] in *. subst r2.
  pose proof (same_config_trans K03 K4) as K04.
  destruct r1 as [g|e]; cbn [fst snd];
    (split; [reflexivity|]; split; [assumption|]; split; [assumption|];
     intros H; auto).
Qed.

Lemma Collect_body_by_phase (E1 E2 : Env) (c1 c2 : Collector) :
  fetch_phase E1 c1 = fetch_phase E2 c2 ->
  Collect_body E1 c1 = Collect_body E2 c2.
Proof.
  intros H.
  destruct (fetch_phase E1 c1) as [c' [[[[n m] s] g]|e]] eqn:H1; symmetry in H.
  - rewrite (@Collect_body_success E1 _ _ _ _ _ _ H1),
      (@Collect_body_success E2 _ _ _ _ _ _ H). reflexivity.
  - rewrite (@Collect_body_failure E1 _ _ _ H1),
      (@Collect_body_failure E2 _ _ _ H). reflexivity.
Qed.

Lemma inc_totalScrapes_same_config (c : Collector) :
  same_config c (inc_totalScrapes c).
Proof. unfold same_config. cbn. tauto. Qed.

(** X8.  A cycle reaches the outside world only through the printing of
    its four endpoint URLs, the construction of a GET request for each of
    them, requests that carry the configured user name and password as
    Basic credentials, and the decoding of bodies: in two environments
    that answer alike to these, [Collect] does the same, whatever else
    differs between them. *)
Theorem cycle_sees_only_authenticated_gets (E1 E2 : Env) (c : Collector)
    (Hsame : same_traffic c E1 E2) :
  Collect E1 c = Collect E2 c.
Proof.
  pose proof (same_traffic_same_config (inc_totalScrapes_same_config c) Hsame)
    as Ht.
  destruct (fetch_phase_sim Ht (same_config_refl (inc_totalScrapes c)))
    as (Hs & _ & _ & Hf).
  assert (Hp : fetch_phase E1 (inc_totalScrapes c)
               = fetch_phase E2 (inc_totalScrapes c)).
  { destruct (fetch_phase E1 (inc_totalScrapes c)) as [a1 r1].
    destruct (fetch_phase E2 (inc_totalScrapes c)) as [a2 r2].
    cbn [fst snd] in *. now rewrite Hs, (Hf eq_refl). }
  unfold Collect. rewrite (Collect_body_by_phase _ _ _ _ Hp). reflexivity.
Qed.

Lemma cycle_sees_only_authenticated_gets_witness :
  let E1 := Fixture.healthy "128.5M" [] in
  let E2 :=
    {| URL_String := URL_String E1;
       NewRequest := NewRequest E1;
       Do := fun r =>
         match BasicAuth r with
         | Some ("admin", "public") => Do E1 r
         | _ => inr "401 Unauthorized"
         end;
       decodeNodes := decodeNodes E1;
       decodeMetrics := decodeMetrics E1;
       decodeStats := decodeStats E1;
       decodeManagement := decodeManagement E1 |} in
  same_traffic Fixture.collector E1 E2 /\
  Collect E1 Fixture.collector = Collect E2 Fixture.collector.
Proof.
  intros E1 E2.
  assert (H : same_traffic Fixture.collector E1 E2).
  { unfold same_traffic. repeat split; try reflexivity.
    intros r Hr. cbn. cbn in Hr. rewrite Hr. reflexivity. }
  split; [exact H|].
  exact (@cycle_sees_only_authenticated_gets E1 E2 Fixture.collector H).
Defined.

Lemma filter_is_sample_meta (c : Collector) :
  filter is_sample (meta_series c) = [].
Proof. reflexivity. Qed.

Lemma same_traffic_refl (c : Collector) (E : Env) : same_traffic c E E.
Proof. unfold same_traffic. repeat split; reflexivity. Qed.

(** X9.  What a cycle sends as samples, logs, and panics on, and the health
    it reports, do not depend on the state earlier cycles left: from two
    collector states of one configuration (whatever their path in the
    shared URL, their gauge and their counters) the same environment gives
    the same samples, the same log lines, the same panic and the same
    health. *)
Theorem cycle_independent_of_earlier_cycles (E : Env) (c1 c2 : Collector)
    (Hconf : same_config c1 c2) :
  filter is_sample (sent (Collect E c1))
    = filter is_sample (sent (Collect E c2)) /\
  logs (Collect E c1) = logs (Collect E c2) /\
  panic (Collect E c1) = panic (Collect E c2) /\
  gauge_value (up (after (Collect E c1)))
    = gauge_value (up (after (Collect E c2))).
Proof.
  assert (Hc : same_config (inc_totalScrapes c1) (inc_totalScrapes c2)).
  { unfold same_config in *. cbn. tauto. }
  destruct (fetch_phase_sim (same_traffic_refl (inc_totalScrapes c1) E) Hc)
    as (Hs & Hf & _ & _).
  rewrite !Collect_sent, !filter_app, !filter_is_sample_meta, !app_nil_r.
  unfold Collect. cbn [logs panic after].
  destruct (fetch_phase E (inc_totalScrapes c1)) as [a1 r1] eqn:H1.
  destruct (fetch_phase E (inc_totalScrapes c2)) as [a2 r2] eqn:H2.
  cbn [fst snd] in *. subst r2.
  destruct r1 as [[[[n m] s] g]|e].
  - rewrite (@Collect_body_success E _ _ _ _ _ _ H1),
      (@Collect_body_success E _ _ _ _ _ _ H2). cbn.
    destruct Hf as (Hn & _ & _ & _ & _ & Hm). rewrite Hn, Hm. auto.
  - rewrite (@Collect_body_failure E _ _ _ H1),
      (@Collect_body_failure E _ _ _ H2). cbn. auto.
Qed.

Lemma cycle_independent_of_earlier_cycles_witness :
  let down := Fixture.broker false Fixture.always_ok None None None None in
  let E := Fixture.healthy "128.5M" [] in
  let c2 := after (Collect down Fixture.collector) in
  same_config Fixture.collector c2 /\
  filter is_sample (sent (Collect E Fixture.collector))
    = filter is_sample (sent (Collect E c2)).
Proof.
  intros down E c2.
  assert (H : same_config Fixture.collector c2).
  { unfold same_config. repeat split; reflexivity. }
  split; [exact H|].
  exact (proj1 (@cycle_independent_of_earlier_cycles E Fixture.collector c2 H)).
Defined.

(** ** Describe and Collect *)

Lemma send_metrics_descs (ms : list metric) (values : combinedResponse)
    (md : ManagementResponseResult) :
  Forall (fun x => In (desc_of x) (map Desc ms))
         (fst (fst (send_metrics ms values md))).
Proof.
  induction ms as [|m ms IH]; cbn [send_metrics]; [constructor|].
  destruct (Value m values) as [v lines|reason]; [|constructor].
  unfold MustNewConstMetric. destruct (Nat.eqb _ _); [|constructor].
  destruct (send_metrics ms values md) as [[samples lines'] p].
  cbn [fst map] in *. constructor; [now left|].
  eapply Forall_impl; [|exact IH]. intros x Hx. now right.
Qed.

(** X10.  [Collect] never sends a metric [Describe] has not announced: the
    descriptor of every metric on the channel, sample, gauge or counter, is
    among those [Describe] sends for the same collector; and [Describe]
    sends one descriptor per metric of the registry and three more. *)
Theorem collect_sends_only_described (E : Env) (c : Collector) :
  Forall (fun x => In (desc_of x) (Describe c)) (sent (Collect E c)) /\
  List.length (Describe c) = (List.length (c_metrics c) + 3)%nat.
Proof.
  split.
  2:{ unfold Describe. rewrite length_app, length_map. reflexivity. }
  rewrite Collect_sent. apply Forall_app. split.
  - unfold Describe.
    destruct (fetch_phase E (inc_totalScrapes c)) as [c' [[[[n m] s] g]|e]]
      eqn:Hp.
    + rewrite (@Collect_body_success E _ _ _ _ _ _ Hp). cbn [sent].
      destruct (fetch_phase_success_config E c Hp) as [_ Hm]. rewrite Hm.
      eapply Forall_impl; [|apply send_metrics_descs].
      intros x Hx. apply in_or_app. now left.
    + rewrite (@Collect_body_failure E _ _ _ Hp). constructor.
  - assert (Hup : gauge_Name (up (after (Collect E c))) = gauge_Name (up c) /\
                  gauge_Help (up (after (Collect E c))) = gauge_Help (up c)).
    { destruct (Collect_after E c) as (v & ->). cbn.
      destruct (fetch_phase_frame E (inc_totalScrapes c)) as (Hs & _).
      unfold same_outside_fetch in Hs. decompose [and] Hs.
      match goal with H : up _ = _ |- _ => rewrite H end. now split. }
    assert (Hpf : counter_Name (jsonParseFailures (after (Collect E c)))
                  = counter_Name (jsonParseFailures c) /\
                  counter_Help (jsonParseFailures (after (Collect E c)))
                  = counter_Help (jsonParseFailures c)).
    { destruct (Collect_parse_failures E c) as [[H _] | [H _]]; rewrite H;
        now split. }
    destruct Hup as [U1 U2]. destruct Hpf as [P1 P2].
    unfold meta_series, Describe.
    repeat constructor; apply in_or_app; right; cbn [desc_of];
      rewrite ?U1, ?U2, ?P1, ?P2, ?Collect_total_scrapes; cbn; auto.
Qed.

Lemma distinctb_NoDup (l : list string) : distinctb l = true -> NoDup l.
Proof.
  induction l as [|x l IH]; cbn; [constructor|].
  intros H. apply andb_true_iff in H. destruct H as [Hx Hl].
  constructor; [|exact (IH Hl)].
  intros Hin. apply negb_true_iff in Hx.
  assert (existsb (String.eqb x) l = true); [|congruence].
  apply existsb_exists. exists x. split; [exact Hin | apply String.eqb_refl].
Qed.

(** X11.  The 52 descriptors [Describe] sends for a collector built by
    [NewEMQCollector] have pairwise different names, all starting with
    [emq_], whatever the address, node and credentials: no two metrics of
    the exporter share a name. *)
Theorem described_names_distinct (u : URL) (nodeName user pass : string) :
  let names :=
    map fqName (Describe (NewEMQCollector u nodeName user pass)) in
  List.length names = 52%nat /\ NoDup names /\
  Forall (fun name => String.prefix "emq_" name = true) names.
Proof.
  intros names. split; [reflexivity|]. split.
  - apply distinctb_NoDup. vm_compute. reflexivity.
  - apply Forall_forall. intros name Hin.
    assert (H : forallb (String.prefix "emq_") names = true)
      by (vm_compute; reflexivity).
    rewrite forallb_forall in H. exact (H name Hin).
Qed.

(** ** What the samples read *)

Lemma send_metrics_ext (ms : list metric) (v1 v2 : combinedResponse)
    (md : ManagementResponseResult) :
  Forall (fun m => Value m v1 = Value m v2) ms ->
  NodeName (nodes_Result (nodes v1)) = NodeName (nodes_Result (nodes v2)) ->
  Release (nodes_Result (nodes v1)) = Release (nodes_Result (nodes v2)) ->
  send_metrics ms v1 md = send_metrics ms v2 md.
Proof.
  intros H Hn Hr. induction H as [|m ms Hm _ IH]; [reflexivity|].
  cbn [send_metrics]. rewrite Hm, Hn, Hr, IH. reflexivity.
Qed.

(** X12.  The samples of a cycle read nothing of the node status but its
    name, release, memory strings, process counts and descriptor limit,
    nothing of the protocol counters' [PacketsSubscribe] and
    [MessagesQos0Received], and of the broker statistics neither a maximum
    nor the subscriptions count: blanking all of these in a snapshot leaves
    every sample, log line and panic of the sending loop as it was. *)
Theorem unexposed_fields_do_not_reach_samples (values : combinedResponse)
    (md : ManagementResponseResult) :
  send_metrics registry (exposed_view values) md
  = send_metrics registry values md.
Proof.
  apply send_metrics_ext; [|reflexivity|reflexivity].
  unfold registry. repeat (constructor; [reflexivity|]). constructor.
Qed.

(** ** Text around the number in a memory field *)

Lemma first_run_skips_prefix (p s : string) :
  has_digit p = false -> first_run (p ++ s) = first_run s.
Proof.
  induction p as [|a p IH]; cbn; [reflexivity|].
  intros H. apply orb_false_iff in H. destruct H as [Ha Hp].
  rewrite Ha. exact (IH Hp).
Qed.

Lemma take_digits_app (d t : string) :
  all_digits d = true -> starts_with_digit t = false ->
  take_digits (d ++ t) = d /\ drop_digits (d ++ t) = t.
Proof.
  intros Hd Ht. induction d as [|a d IH]; cbn.
  - destruct t as [|b t]; cbn in *; [now split|]. rewrite Ht. now split.
  - cbn in Hd. apply andb_true_iff in Hd. destruct Hd as [Ha Hd].
    rewrite Ha. destruct (IH Hd) as [-> ->]. now split.
Qed.

Lemma append_assoc (a b c : string) :
  ((a ++ b) ++ c)%string = (a ++ (b ++ c))%string.
Proof. induction a as [|x a IH]; cbn; [reflexivity | now rewrite IH]. Qed.

Lemma all_digits_drop_empty (d : string) :
  all_digits d = true -> take_digits d = d /\ drop_digits d = EmptyString.
Proof.
  induction d as [|a d IH]; cbn; [now split|].
  intros H. apply andb_true_iff in H. destruct H as [Ha Hd].
  rewrite Ha. destruct (IH Hd) as [-> ->]. now split.
Qed.

(** A numeral followed by text that does not continue it is the run found
    at its start. *)
Lemma run_at_numeral_app (r t : string) :
  starts_with_digit r = true -> run_at r = r ->
  extends_numeral t = false -> run_at (r ++ t) = r.
Proof.
  intros Hs Hr Ht.
  assert (Htd : starts_with_digit t = false).
  { destruct t as [|b t]; [reflexivity|]. cbn in *.
    apply orb_false_iff in Ht. tauto. }
  destruct (run_at_shape r Hs) as [E | (f & Nf & Df & E)]; rewrite Hr in E.
  - assert (Hd : all_digits r = true) by (rewrite E; apply all_digits_take).
    unfold run_at. destruct (take_digits_app r t Hd Htd) as [-> ->].
    destruct t as [|b t]; [reflexivity|].
    cbn in Ht. apply orb_false_iff in Ht. destruct Ht as [_ ->]. reflexivity.
  - set (d := take_digits r) in *.
    assert (Hd : all_digits d = true) by apply all_digits_take.
    rewrite E at 1. rewrite append_assoc. cbn [append].
    unfold run_at.
    destruct (take_digits_app d (String "." (f ++ t)) Hd eq_refl) as [-> ->].
    change (Ascii.eqb "." ".") with true. cbn iota.
    destruct (take_digits_app f t Df Htd) as [-> _].
    destruct f as [|x f]; [contradiction|]. symmetry. exact E.
Qed.

Lemma take_drop_length (x : string) :
  (String.length (take_digits x) + String.length (drop_digits x))%nat
  = String.length x.
Proof.
  induction x as [|y x IH]; cbn; [reflexivity|].
  destruct (is_digit y); cbn; lia.
Qed.

Lemma append_length (x y : string) :
  String.length (x ++ y) = (String.length x + String.length y)%nat.
Proof.
  induction x as [|z x IH]; cbn; [reflexivity | now rewrite IH].
Qed.

(** A run is not longer than the text it is found in. *)
Lemma run_at_length (w : string) :
  (String.length (run_at w) <= String.length w)%nat.
Proof.
  unfold run_at. pose proof (take_drop_length w) as Hw.
  destruct (drop_digits w) as [|a rest]; [lia|].
  destruct (Ascii.eqb a "."); [|lia].
  pose proof (take_drop_length rest) as Hrest.
  destruct (take_digits rest) as [|b fr]; [lia|].
  rewrite append_length. cbn [String.length] in *. lia.
Qed.

Lemma first_run_length (s v : string) :
  first_run s = Some v -> (String.length v <= String.length s)%nat.
Proof.
  induction s as [|b s IH]; cbn [first_run]; [discriminate|].
  destruct (is_digit b).
  - intros H. inversion H. apply run_at_length.
  - intros H. apply IH in H. cbn. lia.
Qed.

(** X15.  Only the first numeral of a memory field counts: text without
    digits before it (a sign included) and text after it that starts with
    neither a digit nor a decimal point (a unit, an exponent) change
    nothing, so the field gives the value the bare numeral gives. *)
Theorem memory_field_ignores_sign_and_unit (p r t : string)
    (Hp : has_digit p = false)
    (Hr : first_run r = Some r)
    (Ht : extends_numeral t = false) :
  first_run (p ++ r ++ t) = Some r /\
  memory_bytes (p ++ r ++ t) = memory_bytes r.
Proof.
  assert (Hs : starts_with_digit r = true /\ run_at r = r).
  { destruct r as [|a r]; [discriminate|].
    cbn [first_run] in Hr. cbn [starts_with_digit].
    destruct (is_digit a).
    - split; [reflexivity|]. injection Hr as Hr. exact Hr.
    - apply first_run_length in Hr. cbn [String.length] in Hr. lia. }
  destruct Hs as [Hs Hrun].
  assert (F : first_run (p ++ r ++ t) = Some r).
  { rewrite (@first_run_skips_prefix p (r ++ t) Hp).
    destruct r as [|a r]; [discriminate|]. cbn [starts_with_digit] in Hs.
    cbn [append first_run]. rewrite Hs.
    change (String a (r ++ t)) with (String a r ++ t)%string.
    rewrite (@run_at_numeral_app (String a r) t); auto. }
  split; [exact F|].
  now rewrite !memory_bytes_by_run, F, Hr.
Qed.

Lemma memory_field_ignores_sign_and_unit_witness :
  has_digit "-" = false /\ first_run "128.5" = Some "128.5" /\
  extends_numeral "GB" = false /\
  memory_bytes "-128.5GB" = memory_bytes "128.5".
Proof.
  split; [reflexivity|]. split; [reflexivity|]. split; [reflexivity|].
  exact (proj2 (@memory_field_ignores_sign_and_unit "-" "128.5" "GB"
                  eq_refl eq_refl eq_refl)).
Defined.

(** ** The sign of a memory value *)

Lemma shr_1_nonneg (mrs : shr_record) :
  0 <= shr_m mrs -> 0 <= shr_m (shr_1 mrs).
Proof.
  destruct mrs as [m r s]. cbn [shr_m].
  destruct m as [|p|p]; [cbn; lia | | lia].
  intros _. destruct p; cbn; lia.
Qed.

Lemma iter_shr_1_nonneg (p : positive) (mrs : shr_record) :
  0 <= shr_m mrs -> 0 <= shr_m (iter_pos shr_1 p mrs).
Proof.
  revert mrs. induction p as [p IH|p IH|]; intros mrs H; cbn [iter_pos].
  - apply IH, IH, shr_1_nonneg, H.
  - apply IH, IH, H.
  - apply shr_1_nonneg, H.
Qed.

Lemma shr_fexp_nonneg (m e : Z) (l : location) :
  0 <= m -> 0 <= shr_m (fst (shr_fexp prec emax m e l)).
Proof.
  intros H. unfold shr_fexp, shr.
  assert (R : shr_m (shr_record_of_loc m l) = m).
  { destruct l as [|[ | | ]]; reflexivity. }
  destruct (fexp prec emax (Zdigits2 m + e) - e) as [|p|p]; cbn [fst];
    [now rewrite R | | now rewrite R].
  apply iter_shr_1_nonneg. now rewrite R.
Qed.

Lemma round_nearest_even_nonneg (m : Z) (l : location) :
  0 <= m -> 0 <= round_nearest_even m l.
Proof.
  intros H. destruct l as [|[ | | ]]; cbn; try lia.
  destruct (Z.even m); lia.
Qed.

(** Rounding a mantissa that is not negative, with the positive sign, gives
    +0, a positive finite number or +Inf. *)
Lemma binary_round_aux_nonneg (m e : Z) (l : location) :
  0 <= m -> is_nonneg_number (binary_round_aux prec emax false m e l) = true.
Proof.
  intros H. unfold binary_round_aux.
  pose proof (shr_fexp_nonneg e l H) as H1.
  destruct (shr_fexp prec emax m e l) as [mrs' e']. cbn [fst] in H1.
  pose proof (shr_fexp_nonneg e' loc_Exact
                (round_nearest_even_nonneg (loc_of_shr_record mrs') H1)) as H2.
  destruct (shr_fexp prec emax _ e' loc_Exact) as [mrs'' e''].
  cbn [fst] in H2.
  destruct (shr_m mrs'') as [|q|q]; [reflexivity | | lia].
  destruct (e'' <=? emax - prec); reflexivity.
Qed.

Lemma of_ratio_nonneg (n d : positive) :
  is_nonneg_number (of_ratio n d) = true.
Proof.
  unfold of_ratio, SFdiv, SFdiv_core_binary. cbn [xorb].
  set (s := 0 - 0 - _).
  set (m' := match s with Z.pos _ => Z.shiftl (Z.pos n) s | 0 => Z.pos n
                     | Z.neg _ => 0 end).
  assert (Hm : 0 <= m').
  { unfold m'. destruct s as [|p|p]; try lia.
    apply Z.shiftl_nonneg. lia. }
  pose proof (Z.div_pos m' (Z.pos d) Hm eq_refl) as Hq.
  unfold Z.div in Hq.
  destruct (Z.div_eucl m' (Z.pos d)) as [q r]. cbn [fst] in Hq.
  apply binary_round_aux_nonneg. exact Hq.
Qed.

Lemma ParseFloat_nonneg (s : string) :
  is_nonneg_number (fst (ParseFloat s)) = true.
Proof.
  unfold ParseFloat. destruct (split_point s) as [i f].
  destruct (well_formed i f); [|reflexivity].
  assert (H : forall n k, is_nonneg_number (decimal_to_float n k) = true).
  { intros n k. unfold decimal_to_float.
    destruct n; [reflexivity | apply of_ratio_nonneg | reflexivity]. }
  match goal with |- context [decimal_to_float ?n ?k] =>
    specialize (H n k); destruct (is_inf (decimal_to_float n k)) end;
    exact H.
Qed.

Lemma mul_million_nonneg (x : float64) :
  is_nonneg_number x = true ->
  is_nonneg_number (mul x (of_int 1000000)) = true.
Proof.
  change (of_int 1000000) with (S754_finite false 8589934592000000 (-33)).
  destruct x as [[|]|[|]| |[|] m e]; cbn [is_nonneg_number]; intros H;
    try discriminate; try reflexivity.
  unfold mul, SFmul. cbn [xorb]. apply binary_round_aux_nonneg. lia.
Qed.

(** X13.  Whatever the text of a memory field, the value its closure returns
    is never NaN and never negative: it is +0, a positive finite number or
    +Inf.  The closure logs nothing, or logs its one conversion error, and
    in that case the value is +Inf. *)
Theorem memory_value_never_negative_nor_nan (s : string) :
  match memory_bytes s with
  | Panicked _ => True
  | Returned v lines =>
      is_nonneg_number v = true /\
      (lines = [] \/
       (lines = ["error converting string into number"] /\
        v = S754_infinity false))
  end.
Proof.
  rewrite memory_bytes_by_run.
  destruct (first_run s) as [r|] eqn:Hr; [|exact I].
  split; [apply mul_million_nonneg, ParseFloat_nonneg|].
  destruct (ParseFloat_run _ Hr) as [-> | [-> (sign & Hv)]]; [now left|].
  right. split; [reflexivity|].
  pose proof (ParseFloat_nonneg r) as Hn. rewrite Hv in *.
  destruct sign; [discriminate|]. reflexivity.
Qed.

(** ** When a cycle panics *)

Lemma has_digit_first_run (t : string) :
  has_digit t = true <-> first_run t <> None.
Proof.
  induction t as [|a t IH]; cbn; [split; [discriminate | congruence]|].
  destruct (is_digit a); cbn; [split; [discriminate | reflexivity] | exact IH].
Qed.

Lemma send_metrics_panics_at (m : metric) (ms : list metric)
    (values : combinedResponse) (md : ManagementResponseResult)
    (reason : string) :
  Value m values = Panicked reason ->
  snd (send_metrics (m :: ms) values md) = Some reason.
Proof. intros H. cbn [send_metrics]. now rewrite H. Qed.

Lemma send_metrics_passes (m : metric) (ms : list metric)
    (values : combinedResponse) (md : ManagementResponseResult)
    (v : float64) (lines : list string) :
  Value m values = Returned v lines ->
  List.length (variableLabels (Desc m)) = 3%nat ->
  snd (send_metrics (m :: ms) values md) = snd (send_metrics ms values md).
Proof.
  intros Hv Hl. cbn [send_metrics]. rewrite Hv.
  unfold MustNewConstMetric. rewrite Hl. cbn [List.length Nat.eqb].
  destruct (send_metrics ms values md) as [[samples lines'] p]. reflexivity.
Qed.

(** X14.  A cycle of a collector with the registry panics in exactly one
    situation: the four fetches succeeded and the memory total or the
    memory used of the node status contains no digit.  The panic is then the
    index error of the memory closure, and no failed fetch, no status code
    and no other field of the payloads can make a cycle panic. *)
Theorem panic_only_from_digitless_memory (E : Env) (c : Collector)
    (Hreg : c_metrics c = registry) :
  (panic (Collect E c) = None \/
   panic (Collect E c) = Some "index out of range [0] with length 0") /\
  (panic (Collect E c) <> None <->
   exists c' n m s g,
     fetch_phase E (inc_totalScrapes c) = (c', inl (n, m, s, g)) /\
     (has_digit (MemoryTotal (nodes_Result n)) = false \/
      has_digit (MemoryUsed (nodes_Result n)) = false)).
Proof.
  destruct (fetch_phase E (inc_totalScrapes c)) as [c' [[[[n m] s] g]|e]] eqn:Hp.
  - destruct (has_digit (MemoryTotal (nodes_Result n))) eqn:Ht;
      [destruct (has_digit (MemoryUsed (nodes_Result n))) eqn:Hu|].
    + destruct (@Collect_success_all_samples E c c' n m s g Hp Hreg
                  (proj1 (has_digit_first_run _) Ht)
                  (proj1 (has_digit_first_run _) Hu)) as (_ & Hn).
      rewrite Hn. split; [now left|]. split; [congruence|].
      intros (c0 & n0 & m0 & s0 & g0 & H & [Hd | Hd]); inversion H; subst;
        congruence.
    + assert (P : panic (Collect E c)
                  = Some "index out of range [0] with length 0").
      { unfold Collect. cbn [panic].
        rewrite (@Collect_body_success E _ _ _ _ _ _ Hp). cbn [panic].
        destruct (fetch_phase_success_config E c Hp) as [_ Hm].
        rewrite Hm, Hreg. unfold registry.
        do 4 (erewrite send_metrics_passes; [|reflexivity|reflexivity]).
        apply has_digit_first_run in Ht.
        destruct (first_run (MemoryTotal (nodes_Result n))) as [r|] eqn:Hr;
          [|contradiction].
        erewrite send_metrics_passes;
          [|cbn [Value snapshot nodes nodes_Result];
            rewrite memory_bytes_by_run, Hr; reflexivity
           |reflexivity].
        apply send_metrics_panics_at. cbn [Value snapshot nodes].
        apply memory_bytes_panics.
        destruct (first_run (MemoryUsed (nodes_Result n))) eqn:Hf;
          [|reflexivity].
        assert (first_run (MemoryUsed (nodes_Result n)) <> None)
          by congruence.
        apply has_digit_first_run in H. congruence. }
      rewrite P. split; [now right|]. split; [|discriminate].
      intros _. exists c', n, m, s, g. split; [reflexivity | now right].
    + assert (P : panic (Collect E c)
                  = Some "index out of range [0] with length 0").
      { unfold Collect. cbn [panic].
        rewrite (@Collect_body_success E _ _ _ _ _ _ Hp). cbn [panic].
        destruct (fetch_phase_success_config E c Hp) as [_ Hm].
        rewrite Hm, Hreg. unfold registry.
        do 4 (erewrite send_metrics_passes; [|reflexivity|reflexivity]).
        apply send_metrics_panics_at. cbn [Value snapshot nodes].
        apply memory_bytes_panics.
        destruct (first_run (MemoryTotal (nodes_Result n))) eqn:Hf;
          [|reflexivity].
        assert (first_run (MemoryTotal (nodes_Result n)) <> None)
          by congruence.
        apply has_digit_first_run in H. congruence. }
      rewrite P. split; [now right|]. split; [|discriminate].
      intros _. exists c', n, m, s, g. split; [reflexivity | now left].
  - destruct (Collect_fetch_failure E c Hp) as (_ & _ & _ & Hn).
    rewrite Hn. split; [now left|]. split; [congruence|].
    intros (c0 & n0 & m0 & s0 & g0 & H & _). discriminate.
Qed.

Lemma panic_only_from_digitless_memory_witness :
  let E := Fixture.broker true Fixture.always_ok
             (Some (Fixture.nodes_payload "n/a" 7))
             (Some Fixture.metrics_payload) (Some Fixture.stats_payload)
             (Some (Fixture.management_payload [])) in
  c_metrics Fixture.collector = registry /\
  (panic (Collect E Fixture.collector) = None \/
   panic (Collect E Fixture.collector)
     = Some "index out of range [0] with length 0").
Proof.
  intros E. split; [reflexivity|].
  exact (proj1 (@panic_only_from_digitless_memory E Fixture.collector
                  eq_refl)).
Defined.
